(** * A four-function calculator: the input state machine and its platform

    The development embeds the React component [Calculator]
    (src/components/Calculator.tsx, and its later revision that adds the
    keyboard listener) as explicit transition functions on a record of the
    component's state cells, together with the ECMAScript operations the
    handlers call: string slicing and searching, [Number.parseFloat],
    [String(number)] and IEEE-754 binary64 arithmetic. *)

From Stdlib Require Import String Ascii ZArith List Bool Lia SpecFloat DecimalString
  DecimalPos.
Import ListNotations.

Local Open Scope string_scope.
Local Open Scope Z_scope.

(** ** ECMAScript strings

    A JavaScript string is a sequence of UTF-16 code units.  Every string the
    calculator builds or receives from its key table is ASCII, so [string]
    (a sequence of bytes) represents it code unit for code unit. *)
Module JsString.

(** [s.length] *)
Definition length (s : string) : Z := Z.of_nat (String.length s).

(** [s.slice(start, end)]: negative indices count from the end of the string,
    and both are clamped to [0, s.length]. *)
Definition slice (s : string) (istart iend : Z) : string :=
  let len := length s in
  let from := if istart <? 0 then Z.max (len + istart) 0 else Z.min istart len in
  let to := if iend <? 0 then Z.max (len + iend) 0 else Z.min iend len in
  substring (Z.to_nat from) (Z.to_nat (Z.max (to - from) 0)) s.

(** [s.includes(pat)] *)
Fixpoint includes (s pat : string) : bool :=
  prefix pat s
  || match s with
     | EmptyString => false
     | String _ rest => includes rest pat
     end.

(** Dropping the first [n] code units. *)
Fixpoint skip (n : nat) (s : string) : string :=
  match n, s with
  | O, _ => s
  | S _, EmptyString => EmptyString
  | S k, String _ rest => skip k rest
  end.

(** [s.replace(pat, rep)] with a string pattern and a replacement text that
    holds no [$]: only the first occurrence of [pat] is replaced. *)
Fixpoint replace (s pat rep : string) : string :=
  if prefix pat s then rep ++ skip (String.length pat) s
  else match s with
       | EmptyString => EmptyString
       | String c rest => String c (replace rest pat rep)
       end.

(** [a || b] on strings: the empty string is the only falsy string. *)
Definition or_else (a b : string) : string :=
  match a with
  | EmptyString => b
  | _ => a
  end.

(** [a <= b] on strings compares code units lexicographically. *)
Definition le (a b : string) : bool := String.leb a b.

End JsString.

(** ** ECMAScript numbers

    The Number type is IEEE-754 binary64.  Values are [spec_float]s, the
    operations are the ones of [SpecFloat] at precision 53 and maximal
    exponent 1024; all NaNs are one value, as they are for a script. *)
Module JsNumber.

Definition number : Type := spec_float.

Definition prec : Z := 53.
Definition emax : Z := 1024.

Definition NaN : number := S754_nan.
Definition Infinity : number := S754_infinity false.
Definition NegInfinity : number := S754_infinity true.
Definition zero : number := S754_zero false.
Definition negzero : number := S754_zero true.

(** A [spec_float] is a Number when its mantissa and exponent are the
    canonical ones of binary64. *)
Definition isNumber (x : number) : bool := valid_binary prec emax x.

Definition isFinite (x : number) : bool :=
  match x with
  | S754_zero _ | S754_finite _ _ _ => true
  | _ => false
  end.

Definition isZero (x : number) : bool :=
  match x with
  | S754_zero _ => true
  | _ => false
  end.

(** [x > 0] and [x < 0] *)
Definition isPositive (x : number) : bool := SFltb zero x.
Definition isNegative (x : number) : bool := SFltb x zero.

Definition add : number -> number -> number := SFadd prec emax.
Definition sub : number -> number -> number := SFsub prec emax.
Definition mul : number -> number -> number := SFmul prec emax.
Definition div : number -> number -> number := SFdiv prec emax.

(** The Number nearest to the integer [z] (ties to even). *)
Definition ofZ (z : Z) : number := binary_normalize prec emax z 0 false.

(** The Number nearest to the rational [p / q] (ties to even), with the sign
    [neg]: one correctly rounded division of two integers, which
    [SFdiv] performs on mantissas of any size. *)
Definition ofRatio (neg : bool) (p q : positive) : number :=
  SFdiv prec emax (S754_finite neg p 0) (S754_finite false q 0).

(** The Number for the decimal [m * 10^e], [m > 0]. *)
Definition ofDecimal (neg : bool) (m : positive) (e : Z) : number :=
  if 0 <=? e then ofRatio neg (m * Z.to_pos (10 ^ e)) 1
  else ofRatio neg m (Z.to_pos (10 ^ (- e))).

(** *** Scanning a [StrDecimalLiteral] *)

Definition isDigit (c : ascii) : bool :=
  (Ascii.leb "0" c && Ascii.leb c "9")%char.

Definition digitValue (c : ascii) : Z := Z.of_N (N_of_ascii c) - 48.

(** The longest prefix of decimal digits, and what follows it. *)
Fixpoint spanDigits (s : string) : string * string :=
  match s with
  | EmptyString => (EmptyString, EmptyString)
  | String c rest =>
      if isDigit c
      then let (ds, tl) := spanDigits rest in (String c ds, tl)
      else (EmptyString, s)
  end.

(** The value of a string of decimal digits, most significant first. *)
Fixpoint digitsValueFrom (acc : Z) (s : string) : Z :=
  match s with
  | EmptyString => acc
  | String c rest => digitsValueFrom (10 * acc + digitValue c) rest
  end.

Definition digitsValue (s : string) : Z := digitsValueFrom 0 s.

Variant literalBody :=
  | LitInfinity
  | LitDecimal (intPart fracPart : string) (exponent : Z).

Record literal := { lit_negative : bool; lit_body : literalBody }.

(** [ExponentPart]: [e] or [E], an optional sign, at least one digit.  When
    the text does not continue with a complete exponent part, the literal
    ends before it and the exponent is 0. *)
Definition scanExponent (s : string) : Z * string :=
  match s with
  | String c rest =>
      if (Ascii.eqb c "e" || Ascii.eqb c "E")%char then
        let '(neg, body) :=
          match rest with
          | String "+" r => (false, r)
          | String "-" r => (true, r)
          | _ => (false, rest)
          end in
        let (ds, tl) := spanDigits body in
        match ds with
        | EmptyString => (0, s)
        | _ => ((if neg then - digitsValue ds else digitsValue ds), tl)
        end
      else (0, s)
  | EmptyString => (0, s)
  end.

(** [StrUnsignedDecimalLiteral]: [Infinity], or digits with an optional
    fraction, or a fraction alone, each with an optional exponent part. *)
Definition scanUnsigned (s : string) : option (literalBody * string) :=
  if prefix "Infinity" s then Some (LitInfinity, JsString.skip 8 s)
  else
    let (ip, r1) := spanDigits s in
    match r1 with
    | String "." r2 =>
        let (fp, r3) := spanDigits r2 in
        match ip, fp with
        | EmptyString, EmptyString => None
        | _, _ => let (e, tl) := scanExponent r3 in Some (LitDecimal ip fp e, tl)
        end
    | _ =>
        match ip with
        | EmptyString => None
        | _ => let (e, tl) := scanExponent r1 in Some (LitDecimal ip EmptyString e, tl)
        end
    end.

(** The longest prefix of [s] that is a [StrDecimalLiteral], parsed, and the
    rest of [s]; [None] when no prefix is one. *)
Definition scanLiteral (s : string) : option (literal * string) :=
  let '(neg, body) :=
    match s with
    | String "+" r => (false, r)
    | String "-" r => (true, r)
    | _ => (false, s)
    end in
  match scanUnsigned body with
  | Some (b, tl) => Some ({| lit_negative := neg; lit_body := b |}, tl)
  | None => None
  end.

(** [s] as a whole is a [StrDecimalLiteral]. *)
Definition isNumericLiteral (s : string) : bool :=
  match scanLiteral s with
  | Some (_, EmptyString) => true
  | _ => false
  end.

(** [StringNumericValue]: the mathematical value of the literal, rounded. *)
Definition literalValue (l : literal) : number :=
  match lit_body l with
  | LitInfinity => S754_infinity (lit_negative l)
  | LitDecimal ip fp e =>
      match digitsValue (ip ++ fp) with
      | Zpos m => ofDecimal (lit_negative l) m (e - JsString.length fp)
      | _ => S754_zero (lit_negative l)
      end
  end.

(** The white space and line terminators among the ASCII characters, which
    [parseFloat] skips at the start of its argument. *)
Definition isWhiteSpace (c : ascii) : bool :=
  let n := N_of_ascii c in
  ((9 <=? n) && (n <=? 13) || (n =? 32))%N.

Fixpoint trimStart (s : string) : string :=
  match s with
  | String c rest => if isWhiteSpace c then trimStart rest else s
  | EmptyString => s
  end.

(** [Number.parseFloat(s)] *)
Definition parseFloat (s : string) : number :=
  match scanLiteral (trimStart s) with
  | Some (l, _) => literalValue l
  | None => NaN
  end.

(** *** [Number::toString] in radix 10

    For a finite positive [x] the text is built from integers [n], [k] and
    [s] with [k >= 1], [10^(k-1) <= s < 10^k], such that the Number for
    [s * 10^(n-k)] is [x] and [k] is as small as possible; among several
    such [s] the one nearest to [x] is taken, the even one on a tie. *)

(** A finite positive Number [m * 2^e] as an exact fraction. *)
Definition fraction (m : positive) (e : Z) : Z * Z :=
  if 0 <=? e then (Zpos m * 2 ^ e, 1) else (Zpos m, 2 ^ (- e)).

(** The fraction divided by [10^q]. *)
Definition scale10 (f : Z * Z) (q : Z) : Z * Z :=
  let (num, den) := f in
  if 0 <=? q then (num, den * 10 ^ q) else (num * 10 ^ (- q), den).

Definition belowPow10 (f : Z * Z) (n : Z) : bool :=
  let (num, den) := scale10 f n in num <? den.

(** The [n] with [10^(n-1) <= x < 10^n]: binary64 has it between -323 and
    309, and the search starts at the lower end. *)
Fixpoint decimalExponentFrom (fuel : nat) (f : Z * Z) (n : Z) : Z :=
  match fuel with
  | O => n
  | S fuel' => if belowPow10 f n then n else decimalExponentFrom fuel' f (n + 1)
  end.

Definition decimalExponent (f : Z * Z) : Z := decimalExponentFrom 632 f (-323).

Record digitString := { ds_s : Z; ds_k : Z; ds_n : Z }.

(** The [k]-digit candidates around [x]: [s] just below (or at) [x] and
    [s + 1] just above, kept when they denote [x].  [s + 1 = 10^k] is
    the one-digit candidate [1] with the next exponent. *)
Definition shortestWith (x : number) (f : Z * Z) (n k : Z) : option digitString :=
  let (num, den) := scale10 f (n - k) in
  let lo := num / den in
  let rest := num - lo * den in
  let hi := lo + 1 in
  let denotes s :=
    match s with
    | Zpos p => SFeqb (ofDecimal false p (n - k)) x
    | _ => false
    end in
  let below := {| ds_s := lo; ds_k := k; ds_n := n |} in
  let above :=
    if hi =? 10 ^ k then {| ds_s := 1; ds_k := 1; ds_n := n + 1 |}
    else {| ds_s := hi; ds_k := k; ds_n := n |} in
  match denotes lo, denotes hi with
  | true, true =>
      match 2 * rest ?= den with
      | Lt => Some below
      | Gt => Some above
      | Eq => Some (if Z.even (ds_s below) then below else above)
      end
  | true, false => Some below
  | false, true => Some above
  | false, false => None
  end.

(** Seventeen digits always denote a binary64 Number uniquely; when the loop
    ends without a candidate ([x] is not canonical) the seventeen-digit
    truncation is returned. *)
Fixpoint shortestFrom (fuel : nat) (x : number) (f : Z * Z) (n k : Z) : digitString :=
  match fuel with
  | O => let (num, den) := scale10 f (n - 17) in
         {| ds_s := num / den; ds_k := 17; ds_n := n |}
  | S fuel' =>
      match shortestWith x f n k with
      | Some d => d
      | None => shortestFrom fuel' x f n (k + 1)
      end
  end.

Definition shortest (m : positive) (e : Z) : digitString :=
  let f := fraction m e in
  shortestFrom 17 (S754_finite false m e) f (decimalExponent f) 1.

(** The decimal digits of a non-negative integer. *)
Definition decimal (z : Z) : string :=
  match z with
  | Zpos p => NilEmpty.string_of_uint (Pos.to_uint p)
  | _ => "0"
  end.

Fixpoint zeros (n : nat) : string :=
  match n with
  | O => EmptyString
  | S n' => String "0" (zeros n')
  end.

Definition formatDigits (d : digitString) : string :=
  let digits := decimal (ds_s d) in
  let k := ds_k d in
  let n := ds_n d in
  if (k <=? n) && (n <=? 21) then
    digits ++ zeros (Z.to_nat (n - k))
  else if (0 <? n) && (n <=? 21) then
    substring 0 (Z.to_nat n) digits ++ "." ++ JsString.skip (Z.to_nat n) digits
  else if (-6 <? n) && (n <=? 0) then
    "0." ++ zeros (Z.to_nat (- n)) ++ digits
  else
    let e := n - 1 in
    let exponent := (if e <? 0 then "-" else "+") ++ decimal (Z.abs e) in
    if k =? 1 then digits ++ "e" ++ exponent
    else substring 0 1 digits ++ "." ++ JsString.skip 1 digits ++ "e" ++ exponent.

(** [String(x)] for a Number [x]. *)
Definition toString (x : number) : string :=
  match x with
  | S754_nan => "NaN"
  | S754_zero _ => "0"
  | S754_infinity false => "Infinity"
  | S754_infinity true => "-Infinity"
  | S754_finite false m e => formatDigits (shortest m e)
  | S754_finite true m e => "-" ++ formatDigits (shortest m e)
  end.

End JsNumber.

(** ** The arithmetic evaluator, lib/calculatorEngine *)
Module CalculatorEngine.
Import JsNumber.

(** Modelled from the spec: the type [Operator] that the component imports
    from lib/calculatorEngine, a file that is not among the sources.  The
    spec gives it four elements, add, subtract, multiply and divide; the
    component writes them as the string literals of [operatorText]. *)
Variant Operator := Add | Subtract | Multiply | Divide.

Definition operatorText (op : Operator) : string :=
  match op with
  | Add => "+"
  | Subtract => "-"
  | Multiply => "*"
  | Divide => "/"
  end.

(** Modelled from the spec: the function [calculate] of lib/calculatorEngine.
    The spec gives its contract as pairwise binary64 arithmetic, one
    operation per operator, where a division by zero is the floating-point
    division and not an error. *)
Definition calculate (left right : number) (operator : Operator) : number :=
  match operator with
  | Add => add left right
  | Subtract => sub left right
  | Multiply => mul left right
  | Divide => div left right
  end.

End CalculatorEngine.

(** ** The button grid

    Both revisions of the component render the same seventeen buttons. *)
Module Keypad.
Import CalculatorEngine.

Variant Digit := D0 | D1 | D2 | D3 | D4 | D5 | D6 | D7 | D8 | D9.

(** The argument each number button passes to [handleNumber]. *)
Definition digitText (d : Digit) : string :=
  match d with
  | D0 => "0" | D1 => "1" | D2 => "2" | D3 => "3" | D4 => "4"
  | D5 => "5" | D6 => "6" | D7 => "7" | D8 => "8" | D9 => "9"
  end.

Variant Button :=
  | ButtonAC
  | ButtonBackspace
  | ButtonOperator (op : Operator)
  | ButtonNumber (d : Digit)
  | ButtonDecimal
  | ButtonEquals.

End Keypad.

Declare Scope calc_scope.
Delimit Scope calc_scope with calc.
Notation "st |> f" := (f st) (at level 45, left associativity, only parsing) : calc_scope.

(** ** The component of src/components/Calculator.tsx

    The four [useState] cells are the fields of [State].  A handler closes
    over the cells of the current render and queues writes to them; the
    writes of one event are applied together before the next event is
    handled, so a handler is a function from the state it saw to the state
    after its writes.  The functional update [setDisplay(prev => ...)] reads
    the same [display] as the render, as no other write to it is pending. *)
Module Calculator.
Import JsNumber CalculatorEngine Keypad.
Local Open Scope calc_scope.

Record State := mkState {
  display : string;
  previousValue : option number;
  operator : option Operator;
  waitingForOperand : bool
}.

Definition initial : State :=
  {| display := "0"; previousValue := None; operator := None;
     waitingForOperand := false |}.

Definition setDisplay (v : string) (st : State) : State :=
  {| display := v; previousValue := previousValue st; operator := operator st;
     waitingForOperand := waitingForOperand st |}.

Definition setPreviousValue (v : option number) (st : State) : State :=
  {| display := display st; previousValue := v; operator := operator st;
     waitingForOperand := waitingForOperand st |}.

Definition setOperator (v : option Operator) (st : State) : State :=
  {| display := display st; previousValue := previousValue st; operator := v;
     waitingForOperand := waitingForOperand st |}.

Definition setWaitingForOperand (v : bool) (st : State) : State :=
  {| display := display st; previousValue := previousValue st;
     operator := operator st; waitingForOperand := v |}.

Definition handleNumber (digit : string) (st : State) : State :=
  if waitingForOperand st then
    st |> setWaitingForOperand false |> setDisplay digit
  else
    let prev := display st in
    let next := if String.eqb prev "0" then digit else prev ++ digit in
    if 15 <? JsString.length (JsString.replace next "." "")
    then st |> setDisplay prev
    else st |> setDisplay next.

Definition handleOperator (nextOperator : Operator) (st : State) : State :=
  let inputValue := parseFloat (display st) in
  match previousValue st with
  | None =>
      st |> setPreviousValue (Some inputValue)
         |> setOperator (Some nextOperator)
         |> setWaitingForOperand true
  | Some previous =>
      match operator st, waitingForOperand st with
      | Some op, false =>
          let result := calculate previous inputValue op in
          st |> setDisplay (toString result)
             |> setPreviousValue (Some result)
             |> setOperator (Some nextOperator)
             |> setWaitingForOperand true
      | _, _ =>
          st |> setOperator (Some nextOperator)
             |> setWaitingForOperand true
      end
  end.

Definition handleEquals (st : State) : State :=
  match operator st, previousValue st with
  | Some op, Some previous =>
      let inputValue := parseFloat (display st) in
      let result := calculate previous inputValue op in
      st |> setDisplay (toString result)
         |> setPreviousValue None
         |> setOperator None
         |> setWaitingForOperand true
  | _, _ => st
  end.

Definition handleClear (st : State) : State :=
  st |> setDisplay "0"
     |> setPreviousValue None
     |> setOperator None
     |> setWaitingForOperand false.

Definition handleDecimal (st : State) : State :=
  if waitingForOperand st then
    st |> setDisplay "0." |> setWaitingForOperand false
  else
    let prev := display st in
    st |> setDisplay (if JsString.includes prev "." then prev else prev ++ ".").

Definition handleBackspace (st : State) : State :=
  if waitingForOperand st then st
  else
    let next := JsString.slice (display st) 0 (-1) in
    st |> setDisplay (JsString.or_else next "0").

(** The [onClick] of each button of the grid. *)
Definition onClick (b : Button) : State -> State :=
  match b with
  | ButtonAC => handleClear
  | ButtonBackspace => handleBackspace
  | ButtonOperator op => handleOperator op
  | ButtonNumber d => handleNumber (digitText d)
  | ButtonDecimal => handleDecimal
  | ButtonEquals => handleEquals
  end.

(** A sequence of button presses, first press first. *)
Definition run (presses : list Button) (st : State) : State :=
  fold_left (fun s b => onClick b s) presses st.

(** The states the component can be in. *)
Inductive reachable : State -> Prop :=
  | reachable_initial : reachable initial
  | reachable_press b st : reachable st -> reachable (onClick b st).

End Calculator.

(** ** The revision of the component with the keyboard listener

    This revision adds the cell [lastPressedButton], which only drives the
    pressed style of a button, and the window-level [keydown] listener. *)
Module KeyboardCalculator.
Import JsNumber CalculatorEngine Keypad.
Local Open Scope calc_scope.

Record State := mkState {
  display : string;
  previousValue : option number;
  operator : option Operator;
  waitingForOperand : bool;
  lastPressedButton : option string
}.

Definition initial : State :=
  {| display := "0"; previousValue := None; operator := None;
     waitingForOperand := false; lastPressedButton := None |}.

Definition setDisplay (v : string) (st : State) : State :=
  {| display := v; previousValue := previousValue st; operator := operator st;
     waitingForOperand := waitingForOperand st;
     lastPressedButton := lastPressedButton st |}.

Definition setPreviousValue (v : option number) (st : State) : State :=
  {| display := display st; previousValue := v; operator := operator st;
     waitingForOperand := waitingForOperand st;
     lastPressedButton := lastPressedButton st |}.

Definition setOperator (v : option Operator) (st : State) : State :=
  {| display := display st; previousValue := previousValue st; operator := v;
     waitingForOperand := waitingForOperand st;
     lastPressedButton := lastPressedButton st |}.

Definition setWaitingForOperand (v : bool) (st : State) : State :=
  {| display := display st; previousValue := previousValue st;
     operator := operator st; waitingForOperand := v;
     lastPressedButton := lastPressedButton st |}.

Definition setLastPressedButton (v : option string) (st : State) : State :=
  {| display := display st; previousValue := previousValue st;
     operator := operator st; waitingForOperand := waitingForOperand st;
     lastPressedButton := v |}.

Definition handleNumber (digit : string) (st : State) : State :=
  let st := st |> setLastPressedButton (Some ("number-" ++ digit)) in
  if waitingForOperand st then
    st |> setWaitingForOperand false |> setDisplay digit
  else
    let prev := display st in
    let next := if String.eqb prev "0" then digit else prev ++ digit in
    if 15 <? JsString.length (JsString.replace next "." "")
    then st |> setDisplay prev
    else st |> setDisplay next.

Definition handleOperator (nextOperator : Operator) (st : State) : State :=
  let st := st |> setLastPressedButton
                    (Some ("operator-" ++ operatorText nextOperator)) in
  let inputValue := parseFloat (display st) in
  match previousValue st with
  | None =>
      st |> setPreviousValue (Some inputValue)
         |> setOperator (Some nextOperator)
         |> setWaitingForOperand true
  | Some previous =>
      match operator st, waitingForOperand st with
      | Some op, false =>
          let result := calculate previous inputValue op in
          st |> setDisplay (toString result)
             |> setPreviousValue (Some result)
             |> setOperator (Some nextOperator)
             |> setWaitingForOperand true
      | _, _ =>
          st |> setOperator (Some nextOperator)
             |> setWaitingForOperand true
      end
  end.

Definition handleEquals (st : State) : State :=
  match operator st, previousValue st with
  | Some op, Some previous =>
      let st := st |> setLastPressedButton None in
      let inputValue := parseFloat (display st) in
      let result := calculate previous inputValue op in
      st |> setDisplay (toString result)
         |> setPreviousValue None
         |> setOperator None
         |> setWaitingForOperand true
  | _, _ => st
  end.

Definition handleClear (st : State) : State :=
  st |> setLastPressedButton None
     |> setDisplay "0"
     |> setPreviousValue None
     |> setOperator None
     |> setWaitingForOperand false.

Definition handleDecimal (st : State) : State :=
  let st := st |> setLastPressedButton (Some "decimal") in
  if waitingForOperand st then
    st |> setDisplay "0." |> setWaitingForOperand false
  else
    let prev := display st in
    st |> setDisplay (if JsString.includes prev "." then prev else prev ++ ".").

Definition handleBackspace (st : State) : State :=
  if waitingForOperand st then st
  else
    let st := st |> setLastPressedButton (Some "backspace") in
    let next := JsString.slice (display st) 0 (-1) in
    st |> setDisplay (JsString.or_else next "0").

(** The [keydown] listener: the state after the event, and whether the
    listener called [event.preventDefault()]. *)
Definition handleKeyDown (key : string) (st : State) : State * bool :=
  if JsString.le "0" key && JsString.le key "9" then (handleNumber key st, true)
  else if String.eqb key "+" then (handleOperator Add st, true)
  else if String.eqb key "-" then (handleOperator Subtract st, true)
  else if String.eqb key "*" then (handleOperator Multiply st, true)
  else if String.eqb key "/" then (handleOperator Divide st, true)
  else if String.eqb key "Enter" || String.eqb key "=" then (handleEquals st, true)
  else if String.eqb key "." || String.eqb key "," then (handleDecimal st, true)
  else if String.eqb key "Backspace" || String.eqb key "Delete"
       then (handleBackspace st, true)
  else if String.eqb key "Escape" then (handleClear st, true)
  else (st, false).

(** The [onClick] of each button of the grid. *)
Definition onClick (b : Button) : State -> State :=
  match b with
  | ButtonAC => handleClear
  | ButtonBackspace => handleBackspace
  | ButtonOperator op => handleOperator op
  | ButtonNumber d => handleNumber (digitText d)
  | ButtonDecimal => handleDecimal
  | ButtonEquals => handleEquals
  end.

(** The four cells the two revisions share. *)
Definition core (st : State) : Calculator.State :=
  {| Calculator.display := display st;
     Calculator.previousValue := previousValue st;
     Calculator.operator := operator st;
     Calculator.waitingForOperand := waitingForOperand st |}.

(** The keyboard mapping of the interface table: each key with the button
    whose operation the table gives it. *)
Definition keyTable : list (string * Button) :=
  [ ("0", ButtonNumber D0); ("1", ButtonNumber D1); ("2", ButtonNumber D2);
    ("3", ButtonNumber D3); ("4", ButtonNumber D4); ("5", ButtonNumber D5);
    ("6", ButtonNumber D6); ("7", ButtonNumber D7); ("8", ButtonNumber D8);
    ("9", ButtonNumber D9);
    ("+", ButtonOperator Add); ("-", ButtonOperator Subtract);
    ("*", ButtonOperator Multiply); ("/", ButtonOperator Divide);
    ("Enter", ButtonEquals); ("=", ButtonEquals);
    (".", ButtonDecimal); (",", ButtonDecimal);
    ("Backspace", ButtonBackspace); ("Delete", ButtonBackspace);
    ("Escape", ButtonAC) ].

(** The states this revision can be in: from the initial one by clicks and by
    the keys of the table. *)
Inductive reachable : State -> Prop :=
  | reachable_initial : reachable initial
  | reachable_click b st : reachable st -> reachable (onClick b st)
  | reachable_key key b st :
      In (key, b) keyTable -> reachable st ->
      reachable (fst (handleKeyDown key st)).

End KeyboardCalculator.

(** ** Display texts

    The shapes a display text can have, in the words of the specification:
    text typed by hand is made of digits and at most one decimal point. *)
Module DisplayText.
Import JsNumber Keypad.

Definition isPoint (c : ascii) : bool := Ascii.eqb c ".".

Fixpoint count (p : ascii -> bool) (s : string) : nat :=
  match s with
  | EmptyString => O
  | String c rest => ((if p c then 1 else 0) + count p rest)%nat
  end.

Fixpoint all (p : ascii -> bool) (s : string) : bool :=
  match s with
  | EmptyString => true
  | String c rest => p c && all p rest
  end.

(** The number of digits of a text, its decimal point not counted. *)
Definition digitCount (s : string) : nat := count isDigit s.

Definition pointCount (s : string) : nat := count isPoint s.

Definition onlyDigitsAndPoint (s : string) : bool :=
  all (fun c => isDigit c || isPoint c) s.

Definition allDigits (s : string) : bool := all isDigit s.

(** Digits, then possibly a decimal point followed by digits only. *)
Fixpoint digitsThenFraction (s : string) : bool :=
  match s with
  | EmptyString => true
  | String c rest =>
      if isDigit c then digitsThenFraction rest
      else isPoint c && allDigits rest
  end.

(** Text typed by hand: a digit, then digits with at most one decimal point
    among them or after them. *)
Definition handTyped (s : string) : bool :=
  match s with
  | EmptyString => false
  | String c rest => isDigit c && digitsThenFraction rest
  end.

(** A text without its last character. *)
Fixpoint dropLast (s : string) : string :=
  match s with
  | EmptyString => EmptyString
  | String c EmptyString => EmptyString
  | String c rest => String c (dropLast rest)
  end.

(** The text of a sequence of digit keys. *)
Fixpoint digitsText (ds : list Digit) : string :=
  match ds with
  | [] => EmptyString
  | d :: rest => digitText d ++ digitsText rest
  end.

(** The first character is not the digit 0. *)
Definition startsNonzero (s : string) : bool :=
  match s with
  | String c _ => negb (Ascii.eqb c "0")
  | EmptyString => false
  end.

(** The digit keys 0, 1, ..., 9, 0, ..., 5: sixteen of them. *)
Definition zeroThenFifteen : list Digit :=
  [D0; D1; D2; D3; D4; D5; D6; D7; D8; D9; D0; D1; D2; D3; D4; D5].

(** The text as a whole is a numeric literal. *)
Definition parsesAsNumber (s : string) : bool := isNumericLiteral s.

End DisplayText.

(** ** Properties of states *)
Module Invariants.
Import JsNumber CalculatorEngine Keypad DisplayText.
Import Calculator.

(** The pending operator and the pending operand are set together. *)
Definition paired (st : State) : Prop :=
  operator st = None <-> previousValue st = None.

(** The display is typed text, or the text of an evaluation's result that
    waits to be replaced by the next operand. *)
Definition displayInvariant (st : State) : Prop :=
  handTyped (display st) = true
  \/ (waitingForOperand st = true
      /\ exists left right op, display st = toString (calculate left right op)).

(** Typing digit keys one after the other. *)
Definition typing (ds : list Digit) : State -> State :=
  run (map ButtonNumber ds).

(** A display text that ends in a decimal point still being typed: what
    precedes the point is a numeric literal. *)
Definition trailingPoint (s : string) : bool :=
  match s with
  | EmptyString => false
  | _ => String.eqb s (dropLast s ++ ".") && parsesAsNumber (dropLast s)
  end.

(** The display is a numeric literal, or one with its decimal point just
    typed.  ([StrDecimalLiteral] admits a literal that ends in its decimal
    point, so for typed text the first case already holds.) *)
Definition numericDisplay (s : string) : bool :=
  parsesAsNumber s || trailingPoint s.

(** The state after the presses 0, /, 0, =. *)
Definition zeroByZero : State :=
  run [ButtonNumber D0; ButtonOperator Divide; ButtonNumber D0; ButtonEquals]
      initial.

End Invariants.

(** ** What the component renders *)
Module Rendering.
Import JsNumber CalculatorEngine Keypad.

(** The text [CalculatorDisplay] shows for its [value]: [value || "0"]. *)
Definition CalculatorDisplay (value : string) : string :=
  JsString.or_else value "0".

(** The text that the grid of the revision with the keyboard listener
    compares [lastPressedButton] with, button by button, as the literals
    stand in its [isPressed] properties; the AC and the equals button are
    given none. *)
Definition pressedLiteral (b : Button) : option string :=
  match b with
  | ButtonAC => None
  | ButtonBackspace => Some "backspace"
  | ButtonOperator Divide => Some "operator-/"
  | ButtonOperator Multiply => Some "operator-*"
  | ButtonOperator Subtract => Some "operator--"
  | ButtonOperator Add => Some "operator-+"
  | ButtonNumber D7 => Some "number-7"
  | ButtonNumber D8 => Some "number-8"
  | ButtonNumber D9 => Some "number-9"
  | ButtonNumber D4 => Some "number-4"
  | ButtonNumber D5 => Some "number-5"
  | ButtonNumber D6 => Some "number-6"
  | ButtonNumber D1 => Some "number-1"
  | ButtonNumber D2 => Some "number-2"
  | ButtonNumber D3 => Some "number-3"
  | ButtonNumber D0 => Some "number-0"
  | ButtonDecimal => Some "decimal"
  | ButtonEquals => None
  end.

(** The [isPressed] property a button is rendered with:
    [lastPressedButton === literal], and [false] by default. *)
Definition isPressed (b : Button) (st : KeyboardCalculator.State) : bool :=
  match pressedLiteral b, KeyboardCalculator.lastPressedButton st with
  | Some literal, Some last => String.eqb last literal
  | _, _ => false
  end.

(** The clicks whose handler records the button in [lastPressedButton]: the
    number, the operator and the decimal buttons always, backspace when no
    operand is awaited; AC and equals record no button. *)
Definition showsPress (b : Button) (st : KeyboardCalculator.State) : bool :=
  match b with
  | ButtonNumber _ | ButtonOperator _ | ButtonDecimal => true
  | ButtonBackspace => negb (KeyboardCalculator.waitingForOperand st)
  | ButtonAC | ButtonEquals => false
  end.

End Rendering.

(** ** Operands and press sequences *)
Module Operands.
Import JsNumber CalculatorEngine Keypad DisplayText.

(** The digit keys of a whole number typed without a needless leading 0: one
    digit, or up to fifteen digits the first of which is not 0. *)
Definition operand (ds : list Digit) : bool :=
  match ds with
  | [] => false
  | [_] => true
  | d :: _ => negb (String.eqb (digitText d) "0") && (List.length ds <=? 15)%nat
  end.

(** The Number is not NaN and its sign bit is clear. *)
Definition isNonNegative (x : number) : bool :=
  match x with
  | S754_nan => false
  | S754_zero s | S754_infinity s | S754_finite s _ _ => negb s
  end.

(** A sequence of clicks in the revision with the keyboard listener. *)
Definition clicks (presses : list Button)
    (st : KeyboardCalculator.State) : KeyboardCalculator.State :=
  fold_left (fun s b => KeyboardCalculator.onClick b s) presses st.

(** The text does not begin with a 0 that a further digit follows: after a
    first 0 comes the decimal point, or nothing. *)
Definition noLeadingZero (s : string) : bool :=
  match s with
  | String c (String c' _) => negb (Ascii.eqb c "0") || Ascii.eqb c' "."
  | _ => true
  end.

(** The keys of a decimal number: the digits before the point, the decimal
    key, the digits after it; and the text they stand for. *)
Definition decimalKeys (whole frac : list Digit) : list Button :=
  (map ButtonNumber whole ++ ButtonDecimal :: map ButtonNumber frac)%list.

Definition decimalText (whole frac : list Digit) : string :=
  digitsText whole ++ "." ++ digitsText frac.

(** The keys that edit the number being typed. *)
Definition editsNumber (b : Button) : bool :=
  match b with
  | ButtonNumber _ | ButtonDecimal | ButtonBackspace => true
  | _ => false
  end.

(** The first character of a key is none of the digits 0-9. *)
Definition startsWithoutDigit (key : string) : bool :=
  match key with
  | EmptyString => true
  | String c _ => negb (isDigit c)
  end.

End Operands.

(** * Properties *)

(** ** Strings *)
Module StringFacts.
Import JsNumber DisplayText.

Lemma append_nil_r (s : string) : s ++ "" = s.
Proof. induction s; simpl; congruence. Qed.

Lemma append_assoc (a b c : string) : (a ++ b) ++ c = a ++ (b ++ c).
Proof. induction a; simpl; congruence. Qed.

Lemma length_append (a b : string) :
  String.length (a ++ b) = (String.length a + String.length b)%nat.
Proof. induction a; simpl; congruence. Qed.

Lemma substring_pred_length (s : string) :
  substring 0 (Nat.pred (String.length s)) s = dropLast s.
Proof.
  induction s as [|c r IH]; [reflexivity|].
  destruct r as [|c' r']; [reflexivity|].
  change (substring 0 (Nat.pred (String.length (String c (String c' r'))))
            (String c (String c' r')))
    with (String c (substring 0 (Nat.pred (String.length (String c' r')))
                      (String c' r'))).
  rewrite IH. reflexivity.
Qed.

Lemma slice_dropLast (s : string) : JsString.slice s 0 (-1) = dropLast s.
Proof.
  unfold JsString.slice, JsString.length.
  rewrite <- substring_pred_length.
  replace (0 <? 0) with false by reflexivity.
  replace (-1 <? 0) with true by reflexivity.
  f_equal; lia.
Qed.

Lemma dropLast_snoc (s : string) (c : ascii) : dropLast (s ++ String c "") = s.
Proof.
  induction s as [|a r IH]; [reflexivity|].
  simpl. rewrite IH. destruct r; reflexivity.
Qed.

Lemma prefix_point (c : ascii) (r : string) :
  prefix "." (String c r) = isPoint c.
Proof.
  unfold isPoint. cbn [prefix].
  destruct (ascii_dec "." c) as [<-|n].
  - destruct r; reflexivity.
  - symmetry. apply Ascii.eqb_neq. congruence.
Qed.

Lemma includes_point (s : string) :
  JsString.includes s "." = negb (pointCount s =? 0)%nat.
Proof.
  induction s as [|c r IH]; [reflexivity|].
  cbn [JsString.includes]. rewrite prefix_point, IH.
  unfold pointCount. cbn [count]. destruct (isPoint c); reflexivity.
Qed.

Lemma count_append (p : ascii -> bool) (a b : string) :
  count p (a ++ b) = (count p a + count p b)%nat.
Proof. induction a; simpl; lia. Qed.

Lemma all_append (p : ascii -> bool) (a b : string) :
  all p (a ++ b) = all p a && all p b.
Proof. induction a as [|c r IH]; simpl; [reflexivity|]. rewrite IH. apply andb_assoc. Qed.

Lemma isDigit_not_point (c : ascii) : isDigit c = true -> isPoint c = false.
Proof.
  unfold isPoint. intros H. apply Ascii.eqb_neq. intros ->. discriminate H.
Qed.

Lemma allDigits_pointCount (s : string) : allDigits s = true -> pointCount s = O.
Proof.
  unfold allDigits, pointCount.
  induction s as [|c r IH]; [reflexivity|].
  simpl. intros [Hc Hr]%andb_prop. rewrite (isDigit_not_point _ Hc), IH; auto.
Qed.

Lemma allDigits_digitCount (s : string) :
  allDigits s = true -> digitCount s = String.length s.
Proof.
  unfold allDigits, digitCount.
  induction s as [|c r IH]; [reflexivity|].
  simpl. intros [Hc Hr]%andb_prop. rewrite Hc, IH; auto.
Qed.

Lemma allDigits_fraction (s : string) :
  allDigits s = true -> digitsThenFraction s = true.
Proof.
  unfold allDigits.
  induction s as [|c r IH]; [reflexivity|].
  simpl. intros [Hc Hr]%andb_prop. rewrite Hc. auto.
Qed.

Lemma fraction_no_point (s : string) :
  digitsThenFraction s = true -> pointCount s = O -> allDigits s = true.
Proof.
  unfold allDigits, pointCount.
  induction s as [|c r IH]; [reflexivity|].
  simpl. destruct (isDigit c) eqn:Hc.
  - rewrite (isDigit_not_point _ Hc). simpl. auto.
  - intros [Hp _]%andb_prop. rewrite Hp. discriminate.
Qed.

Lemma fraction_pointCount (s : string) :
  digitsThenFraction s = true -> (pointCount s <= 1)%nat.
Proof.
  unfold pointCount.
  induction s as [|c r IH]; [simpl; lia|].
  simpl. destruct (isDigit c) eqn:Hc.
  - rewrite (isDigit_not_point _ Hc). simpl. auto.
  - intros [Hp Hr]%andb_prop. rewrite Hp.
    apply allDigits_pointCount in Hr. unfold pointCount in Hr. lia.
Qed.

Lemma fraction_only (s : string) :
  digitsThenFraction s = true -> onlyDigitsAndPoint s = true.
Proof.
  unfold onlyDigitsAndPoint.
  induction s as [|c r IH]; [reflexivity|].
  simpl. destruct (isDigit c) eqn:Hc; simpl.
  - auto.
  - intros [Hp Hr]%andb_prop. rewrite Hp. simpl.
    clear IH. unfold allDigits in Hr. induction r as [|d r IH]; [reflexivity|].
    simpl in *. apply andb_prop in Hr as [Hd Hr]. rewrite Hd. simpl. auto.
Qed.

End StringFacts.

(** ** The platform functions on known values *)
Module PlatformExamples.
Import JsNumber.

Example parseFloat_tenth :
  parseFloat "0.1" = S754_finite false 7205759403792794 (-56).
Proof. vm_compute. reflexivity. Qed.

Example parseFloat_trailing_point : parseFloat "3." = ofZ 3.
Proof. vm_compute. reflexivity. Qed.

Example parseFloat_prefix : parseFloat "12px" = ofZ 12.
Proof. vm_compute. reflexivity. Qed.

Example parseFloat_words :
  parseFloat "NaN" = NaN /\ parseFloat "Infinity" = Infinity
  /\ parseFloat "-Infinity" = NegInfinity /\ parseFloat "" = NaN.
Proof. vm_compute. repeat split; reflexivity. Qed.

Example parseFloat_exponent :
  parseFloat "1e+21" = ofZ 1000000000000000000000.
Proof. vm_compute. reflexivity. Qed.

Example toString_sum :
  toString (add (parseFloat "0.1") (parseFloat "0.2")) = "0.30000000000000004".
Proof. vm_compute. reflexivity. Qed.

Example toString_third : toString (div (ofZ 1) (ofZ 3)) = "0.3333333333333333".
Proof. vm_compute. reflexivity. Qed.

Example toString_large :
  toString (mul (ofZ 999999999999999) (ofZ 999999999999999)) =
  "9.99999999999998e+29".
Proof. vm_compute. reflexivity. Qed.

Example toString_small : toString (parseFloat "0.0000001") = "1e-7".
Proof. vm_compute. reflexivity. Qed.

Example toString_negative : toString (sub (ofZ 5) (ofZ 8)) = "-3".
Proof. vm_compute. reflexivity. Qed.

Example toString_zeros : toString zero = "0" /\ toString negzero = "0".
Proof. split; reflexivity. Qed.

Example slice_last : JsString.slice "12.5" 0 (-1) = "12." /\ JsString.slice "" 0 (-1) = "".
Proof. split; reflexivity. Qed.

Example replace_first_only : JsString.replace "1.2.3" "." "" = "12.3".
Proof. reflexivity. Qed.

Example le_lexicographic :
  JsString.le "0" "7" = true /\ JsString.le "7" "9" = true
  /\ JsString.le "Enter" "9" = false /\ JsString.le "0" "." = false.
Proof. repeat split; reflexivity. Qed.

End PlatformExamples.

(** ** Hand-typed text under the three edits the handlers make *)
Module TypedFacts.
Import JsNumber Keypad DisplayText StringFacts.

Lemma digitText_digit (d : Digit) :
  exists c, digitText d = String c "" /\ isDigit c = true.
Proof. destruct d; eexists; split; reflexivity. Qed.

Lemma handTyped_fraction (s : string) :
  handTyped s = true -> digitsThenFraction s = true.
Proof.
  destruct s as [|c r]; [discriminate|].
  simpl. intros [Hc Hr]%andb_prop. rewrite Hc. exact Hr.
Qed.

Lemma handTyped_nonempty (s : string) : handTyped s = true -> s <> "".
Proof. destruct s; [discriminate | discriminate]. Qed.

Lemma allDigits_snoc (s : string) (d : ascii) :
  allDigits s = true -> isDigit d = true -> allDigits (s ++ String d "") = true.
Proof.
  unfold allDigits. intros Hs Hd. rewrite all_append, Hs. simpl. rewrite Hd. reflexivity.
Qed.

Lemma fraction_snoc_digit (s : string) (d : ascii) :
  digitsThenFraction s = true -> isDigit d = true ->
  digitsThenFraction (s ++ String d "") = true.
Proof.
  intros Hs Hd. induction s as [|c r IH]; simpl.
  - rewrite Hd. reflexivity.
  - simpl in Hs. destruct (isDigit c); [auto|].
    apply andb_prop in Hs as [Hp Hr]. rewrite Hp. simpl.
    apply allDigits_snoc; assumption.
Qed.

Lemma handTyped_snoc_digit (s : string) (d : ascii) :
  handTyped s = true -> isDigit d = true -> handTyped (s ++ String d "") = true.
Proof.
  destruct s as [|c r]; [discriminate|].
  simpl. intros [Hc Hr]%andb_prop Hd. rewrite Hc. simpl.
  apply fraction_snoc_digit; assumption.
Qed.

Lemma allDigits_snoc_point (s : string) :
  allDigits s = true -> digitsThenFraction (s ++ ".") = true.
Proof.
  unfold allDigits. induction s as [|c r IH]; [reflexivity|].
  simpl. intros [Hc Hr]%andb_prop. rewrite Hc. auto.
Qed.

Lemma handTyped_snoc_point (s : string) :
  handTyped s = true -> pointCount s = O -> handTyped (s ++ ".") = true.
Proof.
  destruct s as [|c r]; [discriminate|].
  simpl. intros [Hc Hr]%andb_prop Hp. rewrite Hc. simpl.
  apply allDigits_snoc_point, fraction_no_point; [assumption|].
  unfold pointCount in *. simpl in Hp. lia.
Qed.

Lemma allDigits_dropLast (s : string) :
  allDigits s = true -> allDigits (dropLast s) = true.
Proof.
  unfold allDigits. induction s as [|c r IH]; [reflexivity|].
  intros H. simpl in H. apply andb_prop in H as [Hc Hr].
  destruct r as [|c' r']; [reflexivity|].
  change (dropLast (String c (String c' r')))
    with (String c (dropLast (String c' r'))).
  simpl all at 1. rewrite Hc. simpl. auto.
Qed.

Lemma fraction_dropLast (s : string) :
  digitsThenFraction s = true -> digitsThenFraction (dropLast s) = true.
Proof.
  induction s as [|c r IH]; [reflexivity|].
  intros H. destruct r as [|c' r']; [reflexivity|].
  change (dropLast (String c (String c' r')))
    with (String c (dropLast (String c' r'))).
  simpl in H. simpl digitsThenFraction at 1.
  destruct (isDigit c).
  - apply IH. exact H.
  - apply andb_prop in H as [Hp Hr]. rewrite Hp. simpl.
    apply (allDigits_dropLast (String c' r')). exact Hr.
Qed.

Lemma handTyped_dropLast (s : string) :
  handTyped s = true ->
  handTyped (JsString.or_else (dropLast s) "0") = true.
Proof.
  destruct s as [|c r]; [discriminate|].
  intros H. simpl in H. apply andb_prop in H as [Hc Hr].
  destruct r as [|c' r']; [reflexivity|].
  change (dropLast (String c (String c' r')))
    with (String c (dropLast (String c' r'))).
  simpl. rewrite Hc. simpl. apply (fraction_dropLast (String c' r')). exact Hr.
Qed.

Lemma replace_point (c : ascii) (r : string) :
  JsString.replace (String c r) "." "" =
  if isPoint c then r else String c (JsString.replace r "." "").
Proof.
  cbn [JsString.replace]. rewrite prefix_point.
  destruct (isPoint c); reflexivity.
Qed.

Lemma replace_allDigits (s : string) :
  allDigits s = true -> JsString.replace s "." "" = s.
Proof.
  unfold allDigits. induction s as [|c r IH]; [reflexivity|].
  simpl all. intros [Hc Hr]%andb_prop.
  rewrite replace_point, (isDigit_not_point _ Hc), IH; auto.
Qed.

(** On hand-typed text the length the handler measures is the digit count. *)
Lemma replace_point_digitCount (s : string) :
  digitsThenFraction s = true ->
  String.length (JsString.replace s "." "") = digitCount s.
Proof.
  unfold digitCount. induction s as [|c r IH]; [reflexivity|].
  intros H. simpl in H. rewrite replace_point. cbn [count].
  destruct (isDigit c) eqn:Hc.
  - rewrite (isDigit_not_point _ Hc). simpl. rewrite IH; auto.
  - apply andb_prop in H as [Hp Hr]. rewrite Hp.
    pose proof (allDigits_digitCount _ Hr) as E. unfold digitCount in E.
    rewrite E. reflexivity.
Qed.

Lemma handTyped_shape (s : string) :
  handTyped s = true ->
  s <> "" /\ onlyDigitsAndPoint s = true /\ (pointCount s <= 1)%nat.
Proof.
  intros H. split; [apply handTyped_nonempty, H|].
  apply handTyped_fraction in H.
  split; [apply fraction_only | apply fraction_pointCount]; assumption.
Qed.

End TypedFacts.

(** ** The component's handlers *)
Module CalculatorFacts.
Import JsNumber CalculatorEngine Keypad DisplayText StringFacts TypedFacts.
Import Calculator Invariants.

Lemma run_app (ps qs : list Button) (st : State) :
  run (ps ++ qs) st = run qs (run ps st).
Proof. apply fold_left_app. Qed.

Lemma reachable_run (ps : list Button) (st : State) :
  reachable st -> reachable (run ps st).
Proof.
  revert st. induction ps as [|b ps IH]; intros st H; [exact H|].
  apply IH. constructor. exact H.
Qed.

Lemma handleNumber_typed (d : Digit) (st : State) :
  displayInvariant st -> displayInvariant (handleNumber (digitText d) st).
Proof.
  intros Inv. destruct (digitText_digit d) as (c & -> & Hc).
  unfold handleNumber. destruct (waitingForOperand st) eqn:W.
  - left. simpl. rewrite Hc. reflexivity.
  - destruct Inv as [T | [W' _]]; [|congruence].
    destruct (15 <? _); [left; exact T|].
    left. cbn [display setDisplay].
    destruct (String.eqb (display st) "0").
    + simpl. rewrite Hc. reflexivity.
    + apply handTyped_snoc_digit; assumption.
Qed.

Lemma handleDecimal_typed (st : State) :
  displayInvariant st -> displayInvariant (handleDecimal st).
Proof.
  intros Inv. unfold handleDecimal. destruct (waitingForOperand st) eqn:W.
  - left. reflexivity.
  - destruct Inv as [T | [W' _]]; [|congruence].
    left. cbn [display setDisplay]. rewrite includes_point.
    destruct (pointCount (display st)) eqn:P; simpl; [|exact T].
    apply handTyped_snoc_point; assumption.
Qed.

Lemma handleBackspace_typed (st : State) :
  displayInvariant st -> displayInvariant (handleBackspace st).
Proof.
  intros Inv. unfold handleBackspace. destruct (waitingForOperand st) eqn:W.
  - exact Inv.
  - destruct Inv as [T | [W' _]]; [|congruence].
    left. cbn [display setDisplay]. rewrite slice_dropLast.
    apply handTyped_dropLast. exact T.
Qed.

Lemma handleOperator_typed (op : Operator) (st : State) :
  displayInvariant st -> displayInvariant (handleOperator op st).
Proof.
  intros Inv. unfold handleOperator.
  destruct (previousValue st) as [p|].
  - destruct (operator st) as [o|], (waitingForOperand st) eqn:W.
    2: { right. split; [reflexivity|]. do 3 eexists. reflexivity. }
    all: destruct Inv as [T | [_ R]]; [left; exact T | right; split; [reflexivity | exact R]].
  - destruct Inv as [T | [_ R]]; [left; exact T | right; split; [reflexivity | exact R]].
Qed.

Lemma handleEquals_typed (st : State) :
  displayInvariant st -> displayInvariant (handleEquals st).
Proof.
  intros Inv. unfold handleEquals.
  destruct (operator st) as [o|]; [|exact Inv].
  destruct (previousValue st) as [p|]; [|exact Inv].
  right. split; [reflexivity|]. do 3 eexists. reflexivity.
Qed.

Lemma onClick_typed (b : Button) (st : State) :
  displayInvariant st -> displayInvariant (onClick b st).
Proof.
  destruct b; simpl.
  - intros _. left. reflexivity.
  - apply handleBackspace_typed.
  - apply handleOperator_typed.
  - apply handleNumber_typed.
  - apply handleDecimal_typed.
  - apply handleEquals_typed.
Qed.

Lemma reachable_displayInvariant (st : State) :
  reachable st -> displayInvariant st.
Proof.
  induction 1 as [|b st _ IH]; [left; reflexivity|].
  apply onClick_typed, IH.
Qed.

Lemma reachable_typed (st : State) :
  reachable st -> waitingForOperand st = false -> handTyped (display st) = true.
Proof.
  intros R W. destruct (reachable_displayInvariant st R) as [T | [W' _]];
    [exact T | congruence].
Qed.

End CalculatorFacts.

(** ** The claims about the state machine *)
Module CalculatorClaims.
Import JsNumber CalculatorEngine Keypad DisplayText StringFacts TypedFacts.
Import Calculator Invariants CalculatorFacts.

(** C1. Operator selection.  In every state, pressing an operator [op] parses
    the display text as [inputValue].  With no pending operand it stores
    [inputValue] and [op] and awaits a new operand.  With a pending operand,
    a pending operator and an operand typed since, it evaluates the pending
    operation, shows the text of the result, keeps the result as pending
    operand, stores [op] and awaits a new operand.  Otherwise it only
    replaces the pending operator by [op] and awaits a new operand, the
    pending operand and the display text staying as they are: the presses
    5, +, - leave the operand 5, the operator subtract and the display "5". *)
Theorem handleOperator_selection (st : State) (op : Operator) :
  let inputValue := parseFloat (display st) in
  (previousValue st = None ->
   handleOperator op st =
   {| display := display st; previousValue := Some inputValue;
      operator := Some op; waitingForOperand := true |})
  /\ (forall pending pendingOp,
        previousValue st = Some pending -> operator st = Some pendingOp ->
        waitingForOperand st = false ->
        let result := calculate pending inputValue pendingOp in
        handleOperator op st =
        {| display := toString result; previousValue := Some result;
           operator := Some op; waitingForOperand := true |})
  /\ (forall pending,
        previousValue st = Some pending ->
        operator st = None \/ waitingForOperand st = true ->
        handleOperator op st =
        {| display := display st; previousValue := Some pending;
           operator := Some op; waitingForOperand := true |})
  /\ run [ButtonNumber D5; ButtonOperator Add; ButtonOperator Subtract] initial =
     {| display := "5"; previousValue := Some (ofZ 5);
        operator := Some Subtract; waitingForOperand := true |}.
Proof.
  cbv zeta. unfold handleOperator. split; [|split; [|split]].
  - intros ->. reflexivity.
  - intros pending pendingOp -> -> ->. reflexivity.
  - intros pending P W. rewrite P.
    assert (E : setWaitingForOperand true (setOperator (Some op) st) =
                {| display := display st; previousValue := Some pending;
                   operator := Some op; waitingForOperand := true |})
      by (unfold setOperator, setWaitingForOperand; simpl; rewrite P; reflexivity).
    destruct W as [-> | ->]; [exact E|].
    destruct (operator st); exact E.
  - vm_compute. reflexivity.
Qed.

(** An instance of C1: an operator pressed in the state after 5, +, 3. *)
Lemma handleOperator_selection_witness :
  handleOperator Multiply
    {| display := "3"; previousValue := Some (ofZ 5); operator := Some Add;
       waitingForOperand := false |} =
  {| display := toString (calculate (ofZ 5) (parseFloat "3") Add);
     previousValue := Some (calculate (ofZ 5) (parseFloat "3") Add);
     operator := Some Multiply; waitingForOperand := true |}.
Proof.
  apply (proj1 (proj2 (handleOperator_selection
           {| display := "3"; previousValue := Some (ofZ 5);
              operator := Some Add; waitingForOperand := false |} Multiply))
           (ofZ 5) Add); reflexivity.
Defined.

(** C2. In every state reachable from the initial one by the six handlers the
    pending operator is absent exactly when the pending operand is absent,
    and each of the six handlers preserves that. *)
Theorem paired_invariant :
  (forall st, reachable st -> paired st)
  /\ (forall digit st, paired st -> paired (handleNumber digit st))
  /\ (forall st, paired st -> paired (handleDecimal st))
  /\ (forall op st, paired st -> paired (handleOperator op st))
  /\ (forall st, paired st -> paired (handleEquals st))
  /\ (forall st, paired st -> paired (handleBackspace st))
  /\ (forall st, paired st -> paired (handleClear st)).
Proof.
  assert (Hnum : forall d st, paired st -> paired (handleNumber d st)).
  { intros d st H. unfold handleNumber, paired in *.
    destruct (waitingForOperand st); [exact H|].
    destruct (15 <? _); exact H. }
  assert (Hdec : forall st, paired st -> paired (handleDecimal st)).
  { intros st H. unfold handleDecimal, paired in *.
    destruct (waitingForOperand st); exact H. }
  assert (Hop : forall op st, paired st -> paired (handleOperator op st)).
  { intros op st _. unfold handleOperator, paired.
    destruct (previousValue st) as [p|] eqn:P.
    - destruct (operator st), (waitingForOperand st); simpl;
        rewrite ?P; split; intros E; discriminate E.
    - simpl. split; intros E; discriminate E. }
  assert (Heq : forall st, paired st -> paired (handleEquals st)).
  { intros st H. unfold handleEquals.
    destruct (operator st) eqn:O; [|exact H].
    destruct (previousValue st) eqn:P; [|exact H].
    unfold paired. simpl. split; reflexivity. }
  assert (Hback : forall st, paired st -> paired (handleBackspace st)).
  { intros st H. unfold handleBackspace, paired in *.
    destruct (waitingForOperand st); exact H. }
  assert (Hclear : forall st, paired st -> paired (handleClear st)).
  { intros st _. unfold paired. simpl. split; reflexivity. }
  refine (conj _ (conj Hnum
            (conj Hdec (conj Hop (conj Heq (conj Hback Hclear)))))).
  intros st R. induction R as [|b st R IH].
  - unfold paired. simpl. split; reflexivity.
  - destruct b; simpl; auto.
Qed.

(** An instance of C2: the state after 5, + is paired, and stays so under
    equals. *)
Lemma paired_invariant_witness :
  paired (handleEquals (run [ButtonNumber D5; ButtonOperator Add] initial)).
Proof.
  apply (proj1 (proj2 (proj2 (proj2 (proj2 paired_invariant))))).
  apply (proj1 paired_invariant).
  apply reachable_run. constructor.
Defined.

(** C3. From the initial state ("0", absent, absent, false) the presses
    5, +, 3, *, 2, = go through these states: after + the pending operand is
    5 and the pending operator add; after 3 the display is "3"; after * the
    sum 5 + 3 = 8 is the pending operand and multiply the pending operator;
    after 2 the display is "2"; after = the product 8 * 2 = 16 is shown as
    "16" and pending operand and operator are both absent. *)
Theorem chained_evaluation :
  let s1 := run [ButtonNumber D5; ButtonOperator Add] initial in
  let s2 := onClick (ButtonNumber D3) s1 in
  let s3 := onClick (ButtonOperator Multiply) s2 in
  let s4 := onClick (ButtonNumber D2) s3 in
  let s5 := onClick ButtonEquals s4 in
  initial = {| display := "0"; previousValue := None; operator := None;
               waitingForOperand := false |}
  /\ (previousValue s1 = Some (ofZ 5) /\ operator s1 = Some Add)
  /\ display s2 = "3"
  /\ (calculate (ofZ 5) (ofZ 3) Add = ofZ 8
      /\ previousValue s3 = Some (ofZ 8) /\ operator s3 = Some Multiply)
  /\ display s4 = "2"
  /\ (calculate (ofZ 8) (ofZ 2) Multiply = ofZ 16
      /\ display s5 = "16" /\ previousValue s5 = None /\ operator s5 = None).
Proof. vm_compute. repeat split; reflexivity. Qed.

End CalculatorClaims.

(** ** Typing a run of digits *)
Module TypingFacts.
Import JsNumber CalculatorEngine Keypad DisplayText StringFacts TypedFacts.
Import Calculator Invariants CalculatorFacts.

Lemma setDisplay_same (st : State) : setDisplay (display st) st = st.
Proof. destruct st; reflexivity. Qed.

Lemma setDisplay_twice (a b : string) (st : State) :
  setDisplay a (setDisplay b st) = setDisplay a st.
Proof. reflexivity. Qed.

Lemma substring_whole (s : string) (n : nat) :
  (String.length s <= n)%nat -> substring 0 n s = s.
Proof.
  revert n. induction s as [|c r IH]; intros n H.
  - destruct n; reflexivity.
  - destruct n as [|n]; [simpl in H; lia|].
    simpl. rewrite IH; [reflexivity | simpl in H; lia].
Qed.

Lemma substring_left (a b : string) :
  substring 0 (String.length a) (a ++ b) = a.
Proof.
  induction a as [|c r IH]; simpl.
  - destruct b; reflexivity.
  - rewrite IH. reflexivity.
Qed.

Lemma digitsText_length (ds : list Digit) :
  String.length (digitsText ds) = List.length ds.
Proof.
  induction ds as [|d ds IH]; [reflexivity|].
  simpl. rewrite length_append, IH. destruct d; reflexivity.
Qed.

Lemma digitsText_app (ds es : list Digit) :
  digitsText (ds ++ es) = digitsText ds ++ digitsText es.
Proof.
  induction ds as [|d ds IH]; [reflexivity|].
  simpl. rewrite IH, append_assoc. reflexivity.
Qed.

Lemma digitsText_allDigits (ds : list Digit) : allDigits (digitsText ds) = true.
Proof.
  induction ds as [|d ds IH]; [reflexivity|].
  simpl. unfold allDigits in *. rewrite all_append, IH. destruct d; reflexivity.
Qed.

Lemma startsNonzero_not_0 (s : string) :
  startsNonzero s = true -> String.eqb s "0" = false.
Proof.
  destruct s as [|c r]; [discriminate|].
  simpl. intros H. apply negb_true_iff in H. rewrite H. reflexivity.
Qed.

Lemma startsNonzero_append (s t : string) :
  startsNonzero s = true -> startsNonzero (s ++ t) = true.
Proof. destruct s; [discriminate | trivial]. Qed.

(** Appending digits to a display of digits: the display keeps the first
    fifteen. *)
Lemma typing_append (ds : list Digit) (st : State) :
  waitingForOperand st = false ->
  allDigits (display st) = true ->
  startsNonzero (display st) = true ->
  (String.length (display st) <= 15)%nat ->
  typing ds st = setDisplay (substring 0 15 (display st ++ digitsText ds)) st.
Proof.
  revert st. induction ds as [|d ds IH]; intros st W A N L.
  - simpl. rewrite append_nil_r, substring_whole by exact L.
    symmetry. apply setDisplay_same.
  - change (typing (d :: ds) st) with (typing ds (handleNumber (digitText d) st)).
    destruct (digitText_digit d) as (c & E & Hc).
    unfold handleNumber. rewrite W, (startsNonzero_not_0 _ N).
    assert (A' : allDigits (display st ++ digitText d) = true)
      by (rewrite E; apply allDigits_snoc; assumption).
    rewrite (replace_allDigits _ A').
    unfold JsString.length. rewrite length_append, E.
    cbn [String.length]. cbn [digitsText]. rewrite <- E.
    destruct (15 <? Z.of_nat (String.length (display st) + 1)) eqn:C.
    + apply Z.ltb_lt in C.
      assert (L15 : String.length (display st) = 15%nat) by lia.
      rewrite setDisplay_same, IH by assumption.
      f_equal. rewrite <- L15, !substring_left. reflexivity.
    + apply Z.ltb_ge in C.
      rewrite IH; cbn [display setDisplay waitingForOperand]; try assumption.
      * rewrite setDisplay_twice, append_assoc. reflexivity.
      * apply startsNonzero_append, N.
      * rewrite length_append, E. simpl. lia.
Qed.

(** A fresh number: the first digit replaces the display, the others are
    appended up to fifteen. *)
Lemma typing_fresh (d : Digit) (ds : list Digit) (st : State) :
  waitingForOperand st = true \/ display st = "0" ->
  d <> D0 ->
  typing (d :: ds) st =
  {| display := substring 0 15 (digitsText (d :: ds));
     previousValue := previousValue st; operator := operator st;
     waitingForOperand := false |}.
Proof.
  intros F N.
  change (typing (d :: ds) st) with (typing ds (handleNumber (digitText d) st)).
  assert (E : handleNumber (digitText d) st =
              {| display := digitText d; previousValue := previousValue st;
                 operator := operator st; waitingForOperand := false |}).
  { unfold handleNumber. destruct (waitingForOperand st) eqn:W; [reflexivity|].
    destruct F as [F | F]; [discriminate|]. rewrite F.
    change (String.eqb "0" "0") with true. cbv iota.
    replace (15 <? JsString.length (JsString.replace (digitText d) "." ""))
      with false by (destruct d; reflexivity).
    unfold setDisplay. rewrite W. reflexivity. }
  rewrite E, typing_append; try reflexivity.
  - destruct d; reflexivity.
  - destruct d; try reflexivity. congruence.
  - destruct d; simpl; lia.
Qed.

End TypingFacts.

(** ** The claims about typing *)
Module TypingClaims.
Import JsNumber CalculatorEngine Keypad DisplayText StringFacts TypedFacts.
Import Calculator Invariants CalculatorFacts TypingFacts.

(** C5, as stated, fails on a leading 0.  Sixteen presses of the digit 0 from
    the initial state leave the display "0", one digit and not fifteen; and
    of the sixteen digits 0, 1, ..., 9, 0, ..., 5 the first is replaced and
    the sixteenth is kept, not dropped. *)
Lemma sixteen_digits_leading_zero :
  List.length (repeat D0 16) = 16%nat
  /\ display (typing (repeat D0 16) initial) = "0"
  /\ digitCount (display (typing (repeat D0 16) initial)) = 1%nat
  /\ List.length zeroThenFifteen = 16%nat
  /\ display (typing zeroThenFifteen initial) = "123456789012345"
  /\ typing zeroThenFifteen initial <> typing (removelast zeroThenFifteen) initial.
Proof. vm_compute. repeat split; discriminate. Qed.

(** C5, as amended.  Digit entry [d]: in every state that awaits a new
    operand the display becomes [d] and the flag clears; otherwise a display
    "0" is replaced by [d] (0 then 5 shows "5"); otherwise [d] is appended,
    unless the digit count of the result, its decimal point not counted,
    would exceed 15, and then the state is unchanged.  So sixteen digits
    typed as a fresh number, the first of them not 0, leave a display of the
    first fifteen: the sixteenth is dropped. *)
Theorem handleNumber_entry :
  (forall st d,
     (waitingForOperand st = true ->
      handleNumber (digitText d) st =
      {| display := digitText d; previousValue := previousValue st;
         operator := operator st; waitingForOperand := false |})
     /\ (waitingForOperand st = false -> display st = "0" ->
         handleNumber (digitText d) st =
         {| display := digitText d; previousValue := previousValue st;
            operator := operator st; waitingForOperand := false |})
     /\ (reachable st -> waitingForOperand st = false -> display st <> "0" ->
         handleNumber (digitText d) st =
         if (15 <? digitCount (display st ++ digitText d))%nat then st
         else {| display := display st ++ digitText d;
                 previousValue := previousValue st; operator := operator st;
                 waitingForOperand := false |}))
  /\ display (typing [D0; D5] initial) = "5"
  /\ (forall st ds d,
        waitingForOperand st = true \/ display st = "0" ->
        List.length ds = 15%nat -> hd D0 ds <> D0 ->
        display (typing ds st) = digitsText ds
        /\ digitCount (digitsText ds) = 15%nat
        /\ typing (ds ++ [d]) st = typing ds st).
Proof.
  split; [|split; [reflexivity|]].
  - intros st d. split; [|split].
    + intros W. unfold handleNumber. rewrite W. reflexivity.
    + intros W Z. unfold handleNumber. rewrite W, Z.
      change (String.eqb "0" "0") with true. cbv iota.
      replace (15 <? JsString.length (JsString.replace (digitText d) "." ""))
        with false by (destruct d; reflexivity).
      unfold setDisplay. rewrite W. reflexivity.
    + intros R W NZ. pose proof (reachable_typed st R W) as T.
      destruct (digitText_digit d) as (c & E & Hc).
      unfold handleNumber. rewrite W.
      destruct (String.eqb (display st) "0") eqn:Z;
        [apply String.eqb_eq in Z; contradiction|].
      assert (T' : handTyped (display st ++ digitText d) = true)
        by (rewrite E; apply handTyped_snoc_digit; assumption).
      unfold JsString.length.
      rewrite (replace_point_digitCount _ (handTyped_fraction _ T')).
      replace (15 <? Z.of_nat (digitCount (display st ++ digitText d)))
        with (15 <? digitCount (display st ++ digitText d))%nat
        by (destruct (Nat.ltb_spec 15 (digitCount (display st ++ digitText d)));
            symmetry; [apply Z.ltb_lt | apply Z.ltb_ge]; lia).
      destruct (15 <? _)%nat; [apply setDisplay_same|].
      unfold setDisplay. rewrite W. reflexivity.
  - intros st ds d F L N.
    destruct ds as [|d1 ds]; [discriminate L|]. simpl in N.
    assert (L' : String.length (digitsText (d1 :: ds)) = 15%nat)
      by (rewrite digitsText_length; exact L).
    pose proof (typing_fresh d1 (ds ++ [d])%list st F N) as E1.
    change (d1 :: (ds ++ [d]))%list with ((d1 :: ds) ++ [d])%list in E1.
    rewrite E1, (typing_fresh d1 ds st F N).
    assert (S1 : substring 0 15 (digitsText (d1 :: ds) ++ digitsText [d]) =
                 digitsText (d1 :: ds))
      by (rewrite <- L'; apply substring_left).
    rewrite digitsText_app, S1.
    cbn [display]. rewrite substring_whole by lia.
    split; [reflexivity|]. split; [|reflexivity].
    rewrite allDigits_digitCount; [exact L' | apply digitsText_allDigits].
Qed.

(** An instance of C5: the digit 7 in the state after 1, 2. *)
Lemma handleNumber_entry_witness :
  handleNumber (digitText D7) (typing [D1; D2] initial) =
  {| display := "127"; previousValue := None; operator := None;
     waitingForOperand := false |}.
Proof.
  apply (proj2 (proj2 (proj1 handleNumber_entry (typing [D1; D2] initial) D7))).
  - apply reachable_run. constructor.
  - reflexivity.
  - discriminate.
Defined.

(** C7. Decimal entry: in every state that awaits a new operand the display
    becomes "0." and the flag clears; otherwise a display that already holds
    a decimal point is left alone, and to any other a "." is appended.  So
    decimal entry is idempotent within one number: twice gives the display
    that once gives, and that display holds exactly one decimal point. *)
Theorem handleDecimal_entry (st : State) :
  (waitingForOperand st = true ->
   handleDecimal st =
   {| display := "0."; previousValue := previousValue st;
      operator := operator st; waitingForOperand := false |})
  /\ (waitingForOperand st = false -> pointCount (display st) <> O ->
      handleDecimal st = st)
  /\ (waitingForOperand st = false -> pointCount (display st) = O ->
      handleDecimal st =
      {| display := display st ++ "."; previousValue := previousValue st;
         operator := operator st; waitingForOperand := false |})
  /\ handleDecimal (handleDecimal st) = handleDecimal st
  /\ (reachable st -> pointCount (display (handleDecimal st)) = 1%nat).
Proof.
  assert (Once : forall s, waitingForOperand s = false ->
            pointCount (display s) <> O -> handleDecimal s = s).
  { intros s W P. unfold handleDecimal. rewrite W, includes_point.
    destruct (pointCount (display s)); [contradiction|]. apply setDisplay_same. }
  split; [|split; [exact (Once st)|split; [|split]]].
  - intros W. unfold handleDecimal. rewrite W. reflexivity.
  - intros W P. unfold handleDecimal. rewrite W, includes_point, P.
    unfold setDisplay. rewrite W. reflexivity.
  - apply Once.
    + unfold handleDecimal. destruct (waitingForOperand st) eqn:W;
        [reflexivity | exact W].
    + unfold handleDecimal. destruct (waitingForOperand st) eqn:W;
        [discriminate|].
      cbn [display setDisplay]. rewrite includes_point.
      destruct (pointCount (display st)) eqn:P; simpl.
      * unfold pointCount in *. rewrite count_append, P. discriminate.
      * rewrite P. discriminate.
  - intros R. unfold handleDecimal. destruct (waitingForOperand st) eqn:W.
    + reflexivity.
    + pose proof (reachable_typed st R W) as T.
      apply handTyped_fraction, fraction_pointCount in T.
      cbn [display setDisplay]. rewrite includes_point.
      destruct (pointCount (display st)) eqn:P; simpl.
      * unfold pointCount in *. rewrite count_append, P. reflexivity.
      * lia.
Qed.

(** An instance of C7: the decimal point typed after 3. *)
Lemma handleDecimal_entry_witness :
  handleDecimal (typing [D3] initial) =
  {| display := "3."; previousValue := None; operator := None;
     waitingForOperand := false |}
  /\ pointCount (display (handleDecimal (typing [D3] initial))) = 1%nat.
Proof.
  split.
  - apply (proj1 (proj2 (proj2 (handleDecimal_entry (typing [D3] initial)))));
      reflexivity.
  - apply (proj2 (proj2 (proj2 (proj2 (handleDecimal_entry (typing [D3] initial)))))).
    apply reachable_run. constructor.
Defined.

(** C8. Backspace: in every state that awaits a new operand it changes
    nothing at all; otherwise it removes the last character of the display,
    and shows "0" when nothing is left.  On a display of one character it
    yields "0", and it never yields the empty text. *)
Theorem handleBackspace_erase (st : State) :
  (waitingForOperand st = true -> handleBackspace st = st)
  /\ (waitingForOperand st = false ->
      forall s c, display st = s ++ String c "" ->
      handleBackspace st =
      {| display := match s with EmptyString => "0" | _ => s end;
         previousValue := previousValue st; operator := operator st;
         waitingForOperand := false |})
  /\ (waitingForOperand st = false -> String.length (display st) = 1%nat ->
      display (handleBackspace st) = "0")
  /\ (waitingForOperand st = false -> display (handleBackspace st) <> "").
Proof.
  unfold handleBackspace. split; [|split; [|split]]; intros W; rewrite W.
  - reflexivity.
  - intros s c E. rewrite slice_dropLast, E, dropLast_snoc.
    unfold setDisplay. rewrite W. destruct s; reflexivity.
  - intros L. rewrite slice_dropLast. cbn [display setDisplay].
    destruct (display st) as [|c [|c' r]]; try discriminate L. reflexivity.
  - cbn [display setDisplay]. destruct (JsString.slice (display st) 0 (-1)); discriminate.
Qed.

(** An instance of C8: backspace after 4, 2 and after 4. *)
Lemma handleBackspace_erase_witness :
  display (handleBackspace (typing [D4; D2] initial)) = "4"
  /\ display (handleBackspace (typing [D4] initial)) = "0".
Proof.
  split.
  - rewrite (proj1 (proj2 (handleBackspace_erase (typing [D4; D2] initial)))
               eq_refl "4" "2"%char eq_refl).
    reflexivity.
  - apply (proj1 (proj2 (proj2 (handleBackspace_erase (typing [D4] initial)))));
      reflexivity.
Defined.

(** C10. In every reachable state that does not await a new operand the
    display is not empty and holds only the digits 0-9 and at most one
    decimal point.  Text with any other character, as a computed "Infinity",
    "NaN" or exponent notation has, is on the display only while a new
    operand is awaited; so backspace erases from hand-typed text only, and a
    digit is appended to hand-typed text only. *)
Theorem typed_unless_waiting (st : State) :
  reachable st ->
  (waitingForOperand st = false ->
   display st <> "" /\ onlyDigitsAndPoint (display st) = true
   /\ (pointCount (display st) <= 1)%nat)
  /\ (onlyDigitsAndPoint (display st) = false -> waitingForOperand st = true)
  /\ (handleBackspace st <> st -> handTyped (display st) = true)
  /\ (forall d, display (handleNumber (digitText d) st) <> digitText d ->
      handTyped (display st) = true).
Proof.
  intros R. split; [|split; [|split]].
  - intros W. apply handTyped_shape, reachable_typed; assumption.
  - intros N. destruct (waitingForOperand st) eqn:W; [reflexivity|].
    pose proof (reachable_typed st R W) as T.
    apply handTyped_shape in T. destruct T as (_ & T & _). congruence.
  - intros N. destruct (waitingForOperand st) eqn:W.
    + exfalso. apply N. unfold handleBackspace. rewrite W. reflexivity.
    + apply reachable_typed; assumption.
  - intros d N. destruct (waitingForOperand st) eqn:W.
    + exfalso. apply N. unfold handleNumber. rewrite W. reflexivity.
    + apply reachable_typed; assumption.
Qed.

(** An instance of C10: the state after 1, ., 5. *)
Lemma typed_unless_waiting_witness :
  display (run [ButtonNumber D1; ButtonDecimal; ButtonNumber D5] initial) <> ""
  /\ onlyDigitsAndPoint
       (display (run [ButtonNumber D1; ButtonDecimal; ButtonNumber D5] initial)) = true
  /\ (pointCount
        (display (run [ButtonNumber D1; ButtonDecimal; ButtonNumber D5] initial)) <= 1)%nat.
Proof.
  apply (proj1 (typed_unless_waiting
                  (run [ButtonNumber D1; ButtonDecimal; ButtonNumber D5] initial)
                  (reachable_run _ _ reachable_initial))).
  reflexivity.
Defined.

End TypingClaims.

(** ** Hand-typed text is a decimal literal *)
Module LiteralFacts.
Import JsNumber DisplayText StringFacts TypedFacts.

Lemma spanDigits_allDigits (s : string) :
  allDigits s = true -> spanDigits s = (s, "").
Proof.
  unfold allDigits. induction s as [|c r IH]; [reflexivity|].
  simpl. intros [Hc Hr]%andb_prop. rewrite Hc, IH; auto.
Qed.

Lemma isPoint_eq (c : ascii) : isPoint c = true -> c = "."%char.
Proof. apply Ascii.eqb_eq. Qed.

Lemma spanDigits_fraction (s : string) :
  digitsThenFraction s = true ->
  (exists ip, spanDigits s = (ip, ""))
  \/ (exists ip r2, spanDigits s = (ip, String "." r2) /\ allDigits r2 = true).
Proof.
  induction s as [|c r IH]; [left; exists ""; reflexivity|].
  simpl. destruct (isDigit c) eqn:Hc.
  - intros F. destruct (IH F) as [(ip & E) | (ip & r2 & E & A)]; rewrite E.
    + left. eexists. reflexivity.
    + right. do 2 eexists. split; [reflexivity | exact A].
  - intros [Hp A]%andb_prop. apply isPoint_eq in Hp. subst c.
    right. do 2 eexists. split; [reflexivity | exact A].
Qed.

Lemma scanLiteral_digit (c : ascii) (r : string) :
  isDigit c = true ->
  scanLiteral (String c r) =
  match scanUnsigned (String c r) with
  | Some (b, tl) => Some ({| lit_negative := false; lit_body := b |}, tl)
  | None => None
  end.
Proof.
  destruct c as [[] [] [] [] [] [] [] []]; try discriminate; reflexivity.
Qed.

Lemma prefix_Infinity_digit (c : ascii) (r : string) :
  isDigit c = true -> prefix "Infinity" (String c r) = false.
Proof.
  destruct c as [[] [] [] [] [] [] [] []]; try discriminate; reflexivity.
Qed.

Lemma handTyped_literal (s : string) :
  handTyped s = true -> isNumericLiteral s = true.
Proof.
  destruct s as [|c r]; [discriminate|].
  simpl. intros [Hc F]%andb_prop.
  unfold isNumericLiteral. rewrite (scanLiteral_digit _ _ Hc).
  unfold scanUnsigned. rewrite (prefix_Infinity_digit _ _ Hc).
  cbn [spanDigits]. rewrite Hc.
  destruct (spanDigits_fraction r F) as [(ip & E) | (ip & r2 & E & A)]; rewrite E.
  - reflexivity.
  - cbv iota beta. rewrite (spanDigits_allDigits _ A). reflexivity.
Qed.

End LiteralFacts.

(** ** The text of a number is a numeric literal *)
Module ResultTextFacts.
Import JsNumber DisplayText StringFacts TypedFacts LiteralFacts.

Lemma append_cons_nonempty (a b : string) (c : ascii) : a ++ String c b <> "".
Proof. destruct a; discriminate. Qed.

Lemma decimal_nonempty (z : Z) : decimal z <> "".
Proof.
  destruct z as [|p|p]; try discriminate.
  unfold decimal. pose proof (Unsigned.to_uint_nonnil p) as N.
  destruct (Pos.to_uint p); [contradiction | discriminate ..].
Qed.

Lemma string_of_uint_allDigits (u : Decimal.uint) :
  allDigits (NilEmpty.string_of_uint u) = true.
Proof. unfold allDigits. induction u; simpl; auto. Qed.

Lemma decimal_allDigits (z : Z) : allDigits (decimal z) = true.
Proof.
  destruct z; try reflexivity. apply string_of_uint_allDigits.
Qed.

Lemma zeros_allDigits (n : nat) : allDigits (zeros n) = true.
Proof. unfold allDigits. induction n; simpl; auto. Qed.

Lemma allDigits_append (a b : string) :
  allDigits a = true -> allDigits b = true -> allDigits (a ++ b) = true.
Proof. unfold allDigits. intros A B. rewrite all_append, A, B. reflexivity. Qed.

Lemma substring_allDigits (s : string) (n : nat) :
  allDigits s = true -> allDigits (substring 0 n s) = true.
Proof.
  unfold allDigits. revert n. induction s as [|c r IH]; intros n H.
  - destruct n; reflexivity.
  - destruct n as [|n]; [reflexivity|].
    simpl in *. apply andb_prop in H as [Hc Hr]. rewrite Hc. simpl. auto.
Qed.

Lemma skip_allDigits (s : string) (n : nat) :
  allDigits s = true -> allDigits (JsString.skip n s) = true.
Proof.
  unfold allDigits. revert s. induction n as [|n IH]; intros s H; [exact H|].
  destruct s as [|c r]; [reflexivity|].
  simpl in *. apply andb_prop in H as [_ Hr]. auto.
Qed.

Lemma substring_nonempty (s : string) (n : nat) :
  s <> "" -> (0 < n)%nat -> substring 0 n s <> "".
Proof.
  destruct s as [|c r]; [contradiction|].
  destruct n; [lia | discriminate].
Qed.

Lemma allDigits_typed (s : string) :
  allDigits s = true -> s <> "" -> handTyped s = true.
Proof.
  destruct s as [|c r]; [contradiction|].
  unfold allDigits. simpl. intros [Hc Hr]%andb_prop _.
  rewrite Hc. apply allDigits_fraction, Hr.
Qed.

Lemma fraction_point (a b : string) :
  allDigits a = true -> allDigits b = true ->
  digitsThenFraction (a ++ String "." b) = true.
Proof.
  unfold allDigits. intros A B. induction a as [|c r IH]; simpl.
  - exact B.
  - simpl in A. apply andb_prop in A as [Hc Hr]. rewrite Hc. auto.
Qed.

Lemma typed_point (a b : string) :
  allDigits a = true -> a <> "" -> allDigits b = true ->
  handTyped (a ++ String "." b) = true.
Proof.
  destruct a as [|c r]; [contradiction|].
  unfold allDigits. simpl. intros [Hc Hr]%andb_prop _ B.
  rewrite Hc. apply fraction_point; assumption.
Qed.

Lemma scanUnsigned_typed (s : string) :
  handTyped s = true -> exists b, scanUnsigned s = Some (b, "").
Proof.
  intros T. pose proof (handTyped_literal s T) as L.
  destruct s as [|c r]; [discriminate|].
  simpl in T. apply andb_prop in T as [Hc _].
  unfold isNumericLiteral in L. rewrite (scanLiteral_digit _ _ Hc) in L.
  destruct (scanUnsigned (String c r)) as [[b tl]|]; [|discriminate].
  destruct tl; [|discriminate]. exists b. reflexivity.
Qed.

Lemma spanDigits_stop (a r : string) (c : ascii) :
  allDigits a = true -> isDigit c = false ->
  spanDigits (a ++ String c r) = (a, String c r).
Proof.
  unfold allDigits. intros A C. induction a as [|x a IH]; simpl.
  - rewrite C. reflexivity.
  - simpl in A. apply andb_prop in A as [Hx Ha]. rewrite Hx, (IH Ha). reflexivity.
Qed.

(** The exponent part that [formatDigits] writes. *)
Lemma scanExponent_written (e : Z) :
  exists v,
    scanExponent (String "e" ((if e <? 0 then "-" else "+") ++ decimal (Z.abs e)))
    = (v, "").
Proof.
  pose proof (decimal_nonempty (Z.abs e)) as N.
  pose proof (spanDigits_allDigits _ (decimal_allDigits (Z.abs e))) as S.
  destruct (e <? 0); cbn [scanExponent append Ascii.eqb Bool.eqb orb];
    rewrite S; destruct (decimal (Z.abs e)); try contradiction;
    eexists; reflexivity.
Qed.

Lemma scanUnsigned_exponent (ip x : string) :
  allDigits ip = true -> ip <> "" ->
  (exists v, scanExponent (String "e" x) = (v, "")) ->
  exists b, scanUnsigned (ip ++ String "e" x) = Some (b, "").
Proof.
  intros A N [v E]. destruct ip as [|c ip']; [contradiction|].
  assert (Hc : isDigit c = true)
    by (unfold allDigits in A; simpl in A; apply andb_prop in A; tauto).
  unfold scanUnsigned.
  change (String c ip' ++ String "e" x) with (String c (ip' ++ String "e" x)) at 1.
  rewrite (prefix_Infinity_digit _ _ Hc).
  rewrite (spanDigits_stop (String c ip') x "e"%char A eq_refl). cbv beta iota.
  rewrite E. eexists. reflexivity.
Qed.

Lemma scanUnsigned_point_exponent (ip fp x : string) :
  allDigits ip = true -> ip <> "" -> allDigits fp = true ->
  (exists v, scanExponent (String "e" x) = (v, "")) ->
  exists b, scanUnsigned (ip ++ String "." (fp ++ String "e" x)) = Some (b, "").
Proof.
  intros A N F [v E]. destruct ip as [|c ip']; [contradiction|].
  assert (Hc : isDigit c = true)
    by (unfold allDigits in A; simpl in A; apply andb_prop in A; tauto).
  unfold scanUnsigned.
  change (String c ip' ++ String "." (fp ++ String "e" x))
    with (String c (ip' ++ String "." (fp ++ String "e" x))) at 1.
  rewrite (prefix_Infinity_digit _ _ Hc).
  rewrite (spanDigits_stop (String c ip') (fp ++ String "e" x) "."%char
             A eq_refl).
  cbv beta iota.
  rewrite (spanDigits_stop fp x "e"%char F eq_refl). cbv beta iota.
  rewrite E. eexists. reflexivity.
Qed.

Lemma digits_first (a t : string) :
  allDigits a = true -> a <> "" ->
  exists c r, a ++ t = String c r /\ isDigit c = true.
Proof.
  destruct a as [|c r]; [contradiction|].
  unfold allDigits. simpl. intros [Hc _]%andb_prop _.
  exists c, (r ++ t). split; [reflexivity | exact Hc].
Qed.

Lemma formatDigits_scanned (d : digitString) :
  (exists b, scanUnsigned (formatDigits d) = Some (b, ""))
  /\ (exists c r, formatDigits d = String c r /\ isDigit c = true).
Proof.
  unfold formatDigits.
  pose proof (decimal_allDigits (ds_s d)) as A.
  pose proof (decimal_nonempty (ds_s d)) as N.
  set (digits := decimal (ds_s d)) in *.
  destruct ((ds_k d <=? ds_n d) && (ds_n d <=? 21)).
  { split; [|apply digits_first; assumption].
    apply scanUnsigned_typed, allDigits_typed.
    - apply allDigits_append; [exact A | apply zeros_allDigits].
    - destruct digits; [contradiction | discriminate]. }
  destruct ((0 <? ds_n d) && (ds_n d <=? 21)) eqn:C2.
  { apply andb_prop in C2 as [C2 _]. apply Z.ltb_lt in C2.
    assert (N' : substring 0 (Z.to_nat (ds_n d)) digits <> "")
      by (apply substring_nonempty; [exact N | lia]).
    split; [|apply digits_first; [apply substring_allDigits, A | exact N']].
    apply scanUnsigned_typed, typed_point;
      [apply substring_allDigits, A | exact N' | apply skip_allDigits, A]. }
  destruct ((-6 <? ds_n d) && (ds_n d <=? 0)).
  { split; [|exists "0"%char; eexists; split; reflexivity].
    apply scanUnsigned_typed.
    apply (typed_point "0" (zeros (Z.to_nat (- ds_n d)) ++ digits));
      [reflexivity | discriminate |].
    apply allDigits_append; [apply zeros_allDigits | exact A]. }
  destruct (ds_k d =? 1).
  - split; [|apply digits_first; assumption].
    apply scanUnsigned_exponent; [exact A | exact N | apply scanExponent_written].
  - assert (N' : substring 0 1 digits <> "")
      by (apply substring_nonempty; [exact N | lia]).
    split; [|apply digits_first; [apply substring_allDigits, A | exact N']].
    apply scanUnsigned_point_exponent;
      [apply substring_allDigits, A | exact N' | apply skip_allDigits, A
      | apply scanExponent_written].
Qed.

(** The text of every Number but NaN is a numeric literal. *)
Lemma toString_literal (x : number) :
  x <> NaN -> isNumericLiteral (toString x) = true.
Proof.
  destruct x as [[]|[]| |[] m e]; try reflexivity; intros H.
  - contradiction.
  - destruct (formatDigits_scanned (shortest m e)) as [[b E] _].
    cbn [toString append]. unfold isNumericLiteral, scanLiteral.
    cbv beta iota. rewrite E. reflexivity.
  - destruct (formatDigits_scanned (shortest m e)) as [[b E] (c & r & F & Hc)].
    cbn [toString]. unfold isNumericLiteral.
    rewrite F, (scanLiteral_digit _ _ Hc), <- F, E. reflexivity.
Qed.

End ResultTextFacts.

(** ** The claims about what the display holds *)
Module DisplayClaims.
Import JsNumber CalculatorEngine Keypad DisplayText StringFacts TypedFacts.
Import Calculator Invariants CalculatorFacts LiteralFacts ResultTextFacts.

(** C6, as stated, fails: the presses 0, /, 0, = are four handler calls from
    the initial state, and they leave the display "NaN", the text of the
    result of 0 / 0.  It is no numeric literal, with or without a trailing
    decimal point, and its characters are neither digits nor a decimal
    point. *)
Lemma display_not_numeric :
  reachable zeroByZero
  /\ display zeroByZero = "NaN"
  /\ numericDisplay (display zeroByZero) = false
  /\ onlyDigitsAndPoint (display zeroByZero) = false.
Proof.
  split; [apply reachable_run; constructor|].
  vm_compute. repeat split; reflexivity.
Qed.

(** C6, as amended.  In every reachable state the display parses as a valid
    numeric literal, also while a trailing decimal point is being typed; the
    one exception is the text "NaN", which the operator or the equals
    handler writes as the text of a result that is NaN, and which is on the
    display only while a new operand is awaited.  While none is awaited the
    display is built character by character by the digit and the decimal
    handler, which admit only digits and a single decimal point. *)
Theorem display_numeric_or_NaN (st : State) :
  reachable st ->
  (numericDisplay (display st) = true
   /\ (waitingForOperand st = false -> handTyped (display st) = true))
  \/ (waitingForOperand st = true /\ display st = "NaN"
      /\ exists left right op, calculate left right op = NaN).
Proof.
  intros R.
  destruct (reachable_displayInvariant st R) as [T | (W & l & r & op & E)].
  - left. split; [|intros _; exact T].
    unfold numericDisplay, parsesAsNumber.
    rewrite (handTyped_literal _ T). reflexivity.
  - destruct (calculate l r op) as [s|s| |s m e] eqn:V.
    3: { right. split; [exact W|]. split; [exact E|]. exists l, r, op. exact V. }
    all: left; split; [|intros W'; congruence];
      unfold numericDisplay, parsesAsNumber;
      rewrite E, toString_literal; [reflexivity | discriminate].
Qed.

(** A result that is not finite is parsed back from the display as the
    operand of the next operation: 5, /, 0, = shows "Infinity", and +, 1, =
    after it shows "Infinity" again. *)
Example sentinel_as_operand :
  display (run [ButtonNumber D5; ButtonOperator Divide; ButtonNumber D0;
                ButtonEquals] initial) = "Infinity"
  /\ display (run [ButtonNumber D5; ButtonOperator Divide; ButtonNumber D0;
                   ButtonEquals; ButtonOperator Add; ButtonNumber D1;
                   ButtonEquals] initial) = "Infinity".
Proof. vm_compute. split; reflexivity. Qed.

(** An instance of C6 as amended: the states after 0, /, 0, = and after
    5, /, 0, =. *)
Lemma display_numeric_or_NaN_witness :
  ((numericDisplay (display zeroByZero) = true
    /\ (waitingForOperand zeroByZero = false ->
        handTyped (display zeroByZero) = true))
   \/ (waitingForOperand zeroByZero = true /\ display zeroByZero = "NaN"
       /\ exists left right op, calculate left right op = NaN))
  /\ numericDisplay
       (display (run [ButtonNumber D5; ButtonOperator Divide; ButtonNumber D0;
                      ButtonEquals] initial)) = true.
Proof.
  split.
  - apply display_numeric_or_NaN. apply reachable_run. constructor.
  - vm_compute. reflexivity.
Defined.

End DisplayClaims.

(** ** The claims about the keyboard *)
Module KeyboardClaims.
Import JsNumber CalculatorEngine Keypad.
Import KeyboardCalculator.

(** The revision with the keyboard listener moves the four shared cells as
    the first revision does. *)
Lemma core_onClick (b : Button) (st : State) :
  core (onClick b st) = Calculator.onClick b (core st).
Proof.
  destruct st as [d p o w l].
  destruct b as [| |op|n| |]; unfold core; simpl.
  - reflexivity.
  - unfold handleBackspace, Calculator.handleBackspace. simpl.
    destruct w; reflexivity.
  - unfold handleOperator, Calculator.handleOperator. simpl.
    destruct p; [destruct o, w|]; reflexivity.
  - unfold handleNumber, Calculator.handleNumber. simpl.
    destruct w; [reflexivity|]. destruct (15 <? _); reflexivity.
  - unfold handleDecimal, Calculator.handleDecimal. simpl.
    destruct w; reflexivity.
  - unfold handleEquals, Calculator.handleEquals. simpl.
    destruct o, p; reflexivity.
Qed.

Lemma keydown_table (key : string) (b : Button) (st : State) :
  In (key, b) keyTable -> handleKeyDown key st = (onClick b st, true).
Proof.
  unfold keyTable. intros H.
  repeat (destruct H as [H | H]; [injection H as <- <-; reflexivity|]).
  destruct H.
Qed.

(** Whatever holds of the reachable states of the first revision holds of
    the four shared cells of this one. *)
Lemma core_reachable (st : State) :
  reachable st -> Calculator.reachable (core st).
Proof.
  induction 1 as [|b st _ IH|key b st T _ IH].
  - constructor.
  - rewrite core_onClick. constructor. exact IH.
  - rewrite (keydown_table _ _ _ T). simpl. rewrite core_onClick.
    constructor. exact IH.
Qed.

(** C9. For every state and every key of the keyboard table (the digits 0-9,
    +, -, *, /, Enter and =, the point and the comma, Backspace and Delete,
    Escape) the keydown listener makes the transition that a click on the
    button of the same operation makes, the cell of the pressed style
    included, and it consumes the event. *)
Theorem keydown_as_click (key : string) (b : Button) :
  In (key, b) keyTable ->
  forall st, handleKeyDown key st = (onClick b st, true).
Proof. intros H st. apply keydown_table, H. Qed.

(** An instance of C9: the key Enter in the state after the clicks 5, +, 3. *)
Lemma keydown_as_click_witness :
  handleKeyDown "Enter"
    (onClick (ButtonNumber D3)
       (onClick (ButtonOperator Add) (onClick (ButtonNumber D5) initial))) =
  (onClick ButtonEquals
     (onClick (ButtonNumber D3)
        (onClick (ButtonOperator Add) (onClick (ButtonNumber D5) initial))),
   true).
Proof.
  apply (keydown_as_click "Enter" ButtonEquals).
  unfold keyTable. do 14 right. left. reflexivity.
Defined.

End KeyboardClaims.

(** ** The claims about the evaluator *)
Module EngineClaims.
Import JsNumber CalculatorEngine.

(** C4.  The evaluator is a total function of two Numbers and one of the
    four operators; it is the binary64 addition, subtraction, multiplication
    and division, whatever the right operand.  A division by zero, the
    Number 0 of [evaluate(a, 0, divide)], does not fail: it returns Infinity
    for a positive left operand, -Infinity for a negative one and NaN for a
    zero.  The results Infinity, -Infinity and NaN are operands like any
    other: NaN gives NaN, and an infinity with a finite operand gives the
    infinity of the sign the operation asks for. *)
Theorem calculate_contract (left right : number) :
  (calculate left right Add = add left right
   /\ calculate left right Subtract = sub left right
   /\ calculate left right Multiply = mul left right
   /\ calculate left right Divide = div left right)
  /\ (isPositive left = true -> calculate left zero Divide = Infinity)
  /\ (isNegative left = true -> calculate left zero Divide = NegInfinity)
  /\ (isZero left = true -> calculate left zero Divide = NaN)
  /\ (forall op, calculate NaN right op = NaN /\ calculate left NaN op = NaN)
  /\ (isFinite right = true ->
      calculate Infinity right Add = Infinity
      /\ calculate Infinity right Subtract = Infinity
      /\ calculate NegInfinity right Add = NegInfinity
      /\ calculate NegInfinity right Subtract = NegInfinity).
Proof.
  split; [repeat split|].
  split; [|split; [|split; [|split]]].
  - destruct left as [[]|[]| |[] m e]; try discriminate; reflexivity.
  - destruct left as [[]|[]| |[] m e]; try discriminate; reflexivity.
  - destruct left as [[]|[]| |[] m e]; try discriminate; reflexivity.
  - intros []; split; try reflexivity;
      destruct left as [[]|[]| |[] m e]; reflexivity.
  - destruct right as [[]|[]| |[] m e]; try discriminate; repeat split.
Qed.

(** An instance of C4: 5 divided by 0, -5 divided by 0 and 0 divided by 0. *)
Lemma calculate_contract_witness :
  calculate (ofZ 5) zero Divide = Infinity
  /\ calculate (ofZ (-5)) zero Divide = NegInfinity
  /\ calculate zero zero Divide = NaN.
Proof.
  split; [|split].
  - apply (proj1 (proj2 (calculate_contract (ofZ 5) zero))). reflexivity.
  - apply (proj1 (proj2 (proj2 (calculate_contract (ofZ (-5)) zero)))).
    reflexivity.
  - apply (proj1 (proj2 (proj2 (proj2 (calculate_contract zero zero))))).
    reflexivity.
Defined.

End EngineClaims.

(** ** Further facts about the handlers *)
Module HandlerFacts.
Import JsNumber CalculatorEngine Keypad DisplayText StringFacts TypedFacts.
Import Calculator Invariants CalculatorFacts TypingFacts ResultTextFacts.

Lemma digitCount_snoc_digit (s : string) (d : Digit) :
  digitCount (s ++ digitText d) = S (digitCount s).
Proof.
  unfold digitCount. rewrite count_append.
  destruct d; simpl; lia.
Qed.

Lemma count_dropLast (p : ascii -> bool) (s : string) :
  (count p (dropLast s) <= count p s)%nat.
Proof.
  induction s as [|c r IH]; [simpl; lia|].
  destruct r as [|c' r']; [simpl; lia|].
  change (dropLast (String c (String c' r')))
    with (String c (dropLast (String c' r'))).
  cbn [count] in *. lia.
Qed.

(** A digit entered into hand-typed text. *)
Lemma handleNumber_step (d : Digit) (st : State) :
  waitingForOperand st = false -> handTyped (display st) = true ->
  handleNumber (digitText d) st =
  if String.eqb (display st) "0" then setDisplay (digitText d) st
  else if (15 <=? digitCount (display st))%nat then st
       else setDisplay (display st ++ digitText d) st.
Proof.
  intros W T. destruct (digitText_digit d) as (c & E & Hc).
  unfold handleNumber. rewrite W.
  destruct (String.eqb (display st) "0") eqn:Z.
  - replace (15 <? JsString.length (JsString.replace (digitText d) "." ""))
      with false by (destruct d; reflexivity).
    reflexivity.
  - assert (T' : handTyped (display st ++ digitText d) = true)
      by (rewrite E; apply handTyped_snoc_digit; assumption).
    unfold JsString.length.
    rewrite (replace_point_digitCount _ (handTyped_fraction _ T')).
    rewrite digitCount_snoc_digit.
    destruct (Nat.leb_spec 15 (digitCount (display st))) as [L | L].
    + replace (15 <? Z.of_nat (S (digitCount (display st)))) with true
        by (symmetry; apply Z.ltb_lt; lia).
      apply setDisplay_same.
    + replace (15 <? Z.of_nat (S (digitCount (display st)))) with false
        by (symmetry; apply Z.ltb_ge; lia).
      reflexivity.
Qed.

Lemma handTyped_or_else (s : string) :
  handTyped s = true -> JsString.or_else s "0" = s.
Proof. destruct s; [discriminate | reflexivity]. Qed.

(** The typed text never holds more than fifteen digits. *)
Lemma reachable_cap (st : State) :
  reachable st -> waitingForOperand st = false ->
  (digitCount (display st) <= 15)%nat.
Proof.
  induction 1 as [|b st R IH]; [simpl; intros; unfold digitCount; simpl; lia|].
  destruct b as [| |op|d| |]; cbn [onClick].
  - intros _. unfold digitCount. simpl. lia.
  - unfold handleBackspace. destruct (waitingForOperand st) eqn:W;
      [intros W'; congruence|].
    intros _. cbn [display setDisplay]. rewrite slice_dropLast.
    specialize (IH eq_refl).
    destruct (dropLast (display st)) eqn:D; [unfold digitCount; simpl; lia|].
    cbn [JsString.or_else]. rewrite <- D.
    pose proof (count_dropLast isDigit (display st)). unfold digitCount in *. lia.
  - unfold handleOperator. destruct (previousValue st);
      [destruct (operator st), (waitingForOperand st)|]; discriminate.
  - destruct (waitingForOperand st) eqn:W.
    + unfold handleNumber. rewrite W. intros _. destruct d; unfold digitCount; simpl; lia.
    + rewrite (handleNumber_step d st W (reachable_typed st R W)).
      specialize (IH eq_refl). intros _.
      destruct (String.eqb (display st) "0").
      * destruct d; unfold digitCount; simpl; lia.
      * destruct (Nat.leb_spec 15 (digitCount (display st))); [exact IH|].
        cbn [display setDisplay]. rewrite digitCount_snoc_digit. lia.
  - unfold handleDecimal. destruct (waitingForOperand st) eqn:W.
    + intros _. unfold digitCount. simpl. lia.
    + intros _. specialize (IH eq_refl). cbn [display setDisplay].
      destruct (JsString.includes (display st) "."); [exact IH|].
      unfold digitCount in *. rewrite count_append. simpl. lia.
  - unfold handleEquals. destruct (operator st); [|exact IH].
    destruct (previousValue st); [discriminate | exact IH].
Qed.

Lemma fraction_length (s : string) :
  digitsThenFraction s = true ->
  String.length s = (digitCount s + pointCount s)%nat.
Proof.
  unfold digitCount, pointCount.
  induction s as [|c r IH]; [reflexivity|].
  simpl. destruct (isDigit c) eqn:Hc.
  - intros F. rewrite (isDigit_not_point _ Hc), (IH F). lia.
  - intros [Hp A]%andb_prop. rewrite Hp.
    pose proof (allDigits_digitCount _ A) as D.
    pose proof (allDigits_pointCount _ A) as P.
    unfold digitCount, pointCount in *. lia.
Qed.

Lemma formatDigits_nonempty (d : digitString) : formatDigits d <> "".
Proof.
  unfold formatDigits.
  destruct (_ && _).
  { pose proof (decimal_nonempty (ds_s d)) as N.
    destruct (decimal (ds_s d)); [contradiction | discriminate]. }
  destruct (_ && _); [apply append_cons_nonempty|].
  destruct (_ && _); [discriminate|].
  destruct (ds_k d =? 1); apply append_cons_nonempty.
Qed.

Lemma toString_nonempty (x : number) : toString x <> "".
Proof.
  destruct x as [[]|[]| |[] m e]; try discriminate; simpl.
  apply formatDigits_nonempty.
Qed.

Lemma reachable_nonempty (st : State) : reachable st -> display st <> "".
Proof.
  intros R. destruct (reachable_displayInvariant st R) as [T | (_ & l & r & op & E)].
  - apply handTyped_nonempty, T.
  - rewrite E. apply toString_nonempty.
Qed.

(** The first digit of a fresh number replaces the display. *)
Lemma handleNumber_fresh (d : Digit) (st : State) :
  waitingForOperand st = true \/ display st = "0" ->
  handleNumber (digitText d) st =
  {| display := digitText d; previousValue := previousValue st;
     operator := operator st; waitingForOperand := false |}.
Proof.
  intros F. unfold handleNumber.
  destruct (waitingForOperand st) eqn:W; [reflexivity|].
  destruct F as [F | F]; [discriminate|]. rewrite F.
  change (String.eqb "0" "0") with true. cbv iota.
  replace (15 <? JsString.length (JsString.replace (digitText d) "." ""))
    with false by (destruct d; reflexivity).
  unfold setDisplay. rewrite W. reflexivity.
Qed.

(** The keys of an operand typed as a fresh number show as they are. *)
Lemma typing_operand (ds : list Digit) (st : State) :
  waitingForOperand st = true \/ display st = "0" ->
  Operands.operand ds = true ->
  typing ds st =
  {| display := digitsText ds; previousValue := previousValue st;
     operator := operator st; waitingForOperand := false |}.
Proof.
  intros F O. destruct ds as [|d [|d' ds]]; [discriminate| |].
  - change (typing [d] st) with (handleNumber (digitText d) st).
    rewrite (handleNumber_fresh d st F). simpl. rewrite append_nil_r. reflexivity.
  - unfold Operands.operand in O. apply andb_prop in O as [N L].
    apply Nat.leb_le in L.
    rewrite typing_fresh; [|exact F | intros ->; discriminate N].
    rewrite substring_whole; [reflexivity|].
    rewrite digitsText_length. exact L.
Qed.

Lemma run_cons (b : Button) (ps : list Button) (st : State) :
  run (b :: ps) st = run ps (onClick b st).
Proof. reflexivity. Qed.

Lemma onClick_paired (b : Button) (st : State) :
  paired st -> paired (onClick b st).
Proof.
  destruct b as [| |op|d| |]; cbn [onClick].
  - intros _. unfold paired. simpl. tauto.
  - unfold handleBackspace. destruct (waitingForOperand st); intros H; exact H.
  - intros _. unfold handleOperator, paired.
    destruct (previousValue st) as [p|] eqn:P;
      [destruct (operator st), (waitingForOperand st)|];
      simpl; rewrite ?P; split; discriminate.
  - unfold handleNumber. destruct (waitingForOperand st); [intros H; exact H|].
    destruct (15 <? _); intros H; exact H.
  - unfold handleDecimal. destruct (waitingForOperand st); intros H; exact H.
  - unfold handleEquals. destruct (operator st) eqn:O; [|intros H; exact H].
    destruct (previousValue st) eqn:P; [|intros H; exact H].
    intros _. unfold paired. simpl. tauto.
Qed.

Lemma reachable_paired (st : State) : reachable st -> paired st.
Proof.
  induction 1 as [|b st _ IH]; [unfold paired; simpl; tauto|].
  apply onClick_paired, IH.
Qed.

End HandlerFacts.

(** ** How the handlers compose *)
Module HandlerProperties.
Import JsNumber CalculatorEngine Keypad DisplayText StringFacts TypedFacts.
Import Calculator Invariants CalculatorFacts TypingFacts HandlerFacts.
Import Rendering Operands.

(** X1. Of two operators pressed one after the other only the second
    counts: in every state, pressing [op1] and then [op2] leaves the state
    that pressing [op2] alone leaves. *)
Theorem operator_replaced (op1 op2 : Operator) (st : State) :
  handleOperator op2 (handleOperator op1 st) = handleOperator op2 st.
Proof.
  unfold handleOperator.
  destruct (previousValue st) as [p|] eqn:P.
  - destruct (operator st) as [o|] eqn:O, (waitingForOperand st) eqn:W;
      simpl; rewrite ?P; reflexivity.
  - simpl. reflexivity.
Qed.

(** X2. Equals pressed again changes nothing: in every state two presses
    leave the state one press leaves; and in every reachable state a press
    leaves no pending operator and no pending operand. *)
Theorem equals_once (st : State) :
  handleEquals (handleEquals st) = handleEquals st
  /\ (reachable st ->
      operator (handleEquals st) = None /\ previousValue (handleEquals st) = None).
Proof.
  split.
  - destruct (operator st) as [o|] eqn:O;
      [destruct (previousValue st) as [p|] eqn:P|].
    + assert (E : handleEquals st =
                  {| display := toString (calculate p (parseFloat (display st)) o);
                     previousValue := None; operator := None;
                     waitingForOperand := true |})
        by (unfold handleEquals; rewrite O, P; reflexivity).
      rewrite E. reflexivity.
    + assert (E : handleEquals st = st)
        by (unfold handleEquals; rewrite O, P; reflexivity).
      rewrite !E. reflexivity.
    + assert (E : handleEquals st = st)
        by (unfold handleEquals; rewrite O; reflexivity).
      rewrite !E. reflexivity.
  - intros R. pose proof (reachable_paired st R) as [H1 H2].
    unfold handleEquals.
    destruct (operator st) as [o|] eqn:O;
      [destruct (previousValue st) as [p|] eqn:P|].
    + split; reflexivity.
    + specialize (H2 eq_refl). discriminate.
    + split; [exact O | exact (H1 eq_refl)].
Qed.

(** An instance of X2: equals after 5, +, 3. *)
Lemma equals_once_witness :
  operator (handleEquals
              (run [ButtonNumber D5; ButtonOperator Add; ButtonNumber D3] initial))
  = None
  /\ previousValue
       (handleEquals
          (run [ButtonNumber D5; ButtonOperator Add; ButtonNumber D3] initial))
     = None.
Proof.
  apply (proj2 (equals_once _)). apply reachable_run. constructor.
Defined.

(** X3. With no operand pending, an operator followed at once by equals
    applies the operator to the displayed number and itself, and shows the
    text of that result. *)
Theorem operator_then_equals (op : Operator) (st : State) :
  previousValue st = None ->
  handleEquals (handleOperator op st) =
  {| display := toString (calculate (parseFloat (display st))
                                    (parseFloat (display st)) op);
     previousValue := None; operator := None; waitingForOperand := true |}.
Proof.
  intros P. unfold handleOperator. rewrite P. reflexivity.
Qed.

(** An instance of X3: 5, +, = shows "10". *)
Lemma operator_then_equals_witness :
  display (handleEquals (handleOperator Add (typing [D5] initial))) = "10".
Proof.
  rewrite (operator_then_equals Add (typing [D5] initial) eq_refl).
  vm_compute. reflexivity.
Defined.

(** X4. Clear forgets everything before it: a sequence of presses with an
    AC in it leaves, from every state, the state that the presses after
    the AC leave from the initial state. *)
Theorem clear_forgets (before after : list Button) (st : State) :
  run (before ++ ButtonAC :: after) st = run after initial.
Proof. rewrite run_app, run_cons. reflexivity. Qed.

(** X5. In every reachable state that does not await a new operand the
    display holds at most fifteen digits, and so at most sixteen
    characters. *)
Theorem typed_digits_capped (st : State) :
  reachable st -> waitingForOperand st = false ->
  (digitCount (display st) <= 15)%nat /\ (String.length (display st) <= 16)%nat.
Proof.
  intros R W. pose proof (reachable_cap st R W) as C.
  split; [exact C|].
  pose proof (reachable_typed st R W) as T.
  apply handTyped_fraction in T.
  rewrite (fraction_length _ T).
  pose proof (fraction_pointCount _ T). lia.
Qed.

(** An instance of X5: seventeen presses of 7, a decimal point among them. *)
Lemma typed_digits_capped_witness :
  (digitCount
     (display (run (ButtonNumber D7 :: ButtonDecimal :: repeat (ButtonNumber D7) 16)
                   initial)) <= 15)%nat
  /\ (String.length
        (display (run (ButtonNumber D7 :: ButtonDecimal :: repeat (ButtonNumber D7) 16)
                      initial)) <= 16)%nat.
Proof.
  apply typed_digits_capped; [apply reachable_run; constructor | reflexivity].
Defined.

(** X6. In every reachable state the display text is not empty, so that
    [CalculatorDisplay] shows it as it is and its fallback "0" is never
    what is shown in place of the text. *)
Theorem display_shown_verbatim (st : State) :
  reachable st ->
  display st <> "" /\ CalculatorDisplay (display st) = display st.
Proof.
  intros R. pose proof (reachable_nonempty st R) as N.
  split; [exact N|]. unfold CalculatorDisplay.
  destruct (display st); [contradiction | reflexivity].
Qed.

(** An instance of X6: the state after 0, /, 0, =. *)
Lemma display_shown_verbatim_witness :
  display zeroByZero <> ""
  /\ CalculatorDisplay (display zeroByZero) = display zeroByZero.
Proof.
  apply display_shown_verbatim. apply reachable_run. constructor.
Defined.

(** X7. Backspace takes back a digit just typed: in every reachable state
    that does not await a new operand and shows fewer than fifteen digits,
    a digit and then backspace leave the state as it was. *)
Theorem backspace_undoes_digit (d : Digit) (st : State) :
  reachable st -> waitingForOperand st = false ->
  (digitCount (display st) < 15)%nat ->
  handleBackspace (handleNumber (digitText d) st) = st.
Proof.
  intros R W C. pose proof (reachable_typed st R W) as T.
  rewrite (handleNumber_step d st W T).
  destruct (digitText_digit d) as (c & E & Hc).
  destruct (String.eqb (display st) "0") eqn:Z.
  - apply String.eqb_eq in Z. unfold handleBackspace.
    cbn [waitingForOperand setDisplay display]. rewrite W, slice_dropLast, E.
    simpl. unfold setDisplay. simpl. rewrite <- Z. destruct st; reflexivity.
  - destruct (Nat.leb_spec 15 (digitCount (display st))); [lia|].
    unfold handleBackspace.
    cbn [waitingForOperand setDisplay display]. rewrite W, slice_dropLast, E.
    rewrite dropLast_snoc, (handTyped_or_else _ T).
    destruct st; reflexivity.
Qed.

(** An instance of X7: 4 and backspace after 1, 2. *)
Lemma backspace_undoes_digit_witness :
  handleBackspace (handleNumber (digitText D4) (typing [D1; D2] initial)) =
  typing [D1; D2] initial.
Proof.
  apply backspace_undoes_digit;
    [apply reachable_run; constructor | reflexivity | vm_compute; lia].
Defined.

(** X8. Backspace takes back a decimal point just typed: in every reachable
    state that does not await a new operand and shows no decimal point, the
    decimal key and then backspace leave the state as it was. *)
Theorem backspace_undoes_decimal (st : State) :
  reachable st -> waitingForOperand st = false ->
  pointCount (display st) = O ->
  handleBackspace (handleDecimal st) = st.
Proof.
  intros R W P. pose proof (reachable_typed st R W) as T.
  unfold handleDecimal. rewrite W, includes_point, P.
  unfold handleBackspace.
  cbn [waitingForOperand setDisplay display negb Nat.eqb].
  rewrite W, slice_dropLast, dropLast_snoc, (handTyped_or_else _ T).
  destruct st; reflexivity.
Qed.

(** An instance of X8: the decimal key and backspace after 1, 2. *)
Lemma backspace_undoes_decimal_witness :
  handleBackspace (handleDecimal (typing [D1; D2] initial)) =
  typing [D1; D2] initial.
Proof.
  apply backspace_undoes_decimal;
    [apply reachable_run; constructor | reflexivity | reflexivity].
Defined.

(** X9. One operation from end to end.  From a state with no operand pending
    that starts a fresh number, the keys of a whole number [a], an operator,
    the keys of a whole number [b] and equals leave the display with the
    text of [calculate(a, b, op)] and nothing pending; with a second
    operator in place of equals the same text is shown and the result is
    the pending operand of the second operator. *)
Theorem one_operation (a b : list Digit) (op next : Operator) (st : State) :
  previousValue st = None ->
  waitingForOperand st = true \/ display st = "0" ->
  operand a = true -> operand b = true ->
  let result := calculate (parseFloat (digitsText a))
                          (parseFloat (digitsText b)) op in
  run (map ButtonNumber a ++ ButtonOperator op :: map ButtonNumber b
         ++ [ButtonEquals]) st =
  {| display := toString result; previousValue := None; operator := None;
     waitingForOperand := true |}
  /\ run (map ButtonNumber a ++ ButtonOperator op :: map ButtonNumber b
            ++ [ButtonOperator next]) st =
     {| display := toString result; previousValue := Some result;
        operator := Some next; waitingForOperand := true |}.
Proof.
  intros P F A B result.
  assert (S3 : forall last,
            run (map ButtonNumber a ++ ButtonOperator op :: map ButtonNumber b
                   ++ [last]) st =
            onClick last
              {| display := digitsText b;
                 previousValue := Some (parseFloat (digitsText a));
                 operator := Some op; waitingForOperand := false |}).
  { intros last. rewrite run_app, run_cons, run_app.
    change (run (map ButtonNumber a) st) with (typing a st).
    rewrite (typing_operand a st F A), P.
    change (run (map ButtonNumber b) ?s) with (typing b s).
    rewrite typing_operand; [reflexivity | left; reflexivity | exact B]. }
  split; rewrite S3; reflexivity.
Qed.

(** An instance of X9: 12, *, 34, = shows "408". *)
Lemma one_operation_witness :
  display (run (map ButtonNumber [D1; D2] ++ ButtonOperator Multiply
                  :: map ButtonNumber [D3; D4] ++ [ButtonEquals]) initial)
  = "408".
Proof.
  rewrite (proj1 (one_operation [D1; D2] [D3; D4] Multiply Add initial
                    eq_refl (or_intror eq_refl) eq_refl eq_refl)).
  vm_compute. reflexivity.
Defined.

End HandlerProperties.

(** ** The revision with the keyboard listener, further *)
Module KeyboardProperties.
Import JsNumber CalculatorEngine Keypad DisplayText.
Import KeyboardCalculator Rendering Operands.

Lemma digit_test (key : string) :
  JsString.le "0" key && JsString.le key "9" =
  match key with
  | EmptyString => false
  | String c rest =>
      isDigit c && (negb (Ascii.eqb c "9") || String.eqb rest "")
  end.
Proof.
  destruct key as [|c rest]; [reflexivity|].
  destruct c as [[] [] [] [] [] [] [] []]; destruct rest; reflexivity.
Qed.

Lemma lastPressed_number (digit : string) (st : State) :
  lastPressedButton (handleNumber digit st) = Some ("number-" ++ digit).
Proof.
  unfold handleNumber. cbn [waitingForOperand setLastPressedButton display].
  destruct (waitingForOperand st); [reflexivity|].
  destruct (15 <? _); reflexivity.
Qed.

Lemma lastPressed_operator (op : Operator) (st : State) :
  lastPressedButton (handleOperator op st) =
  Some ("operator-" ++ operatorText op).
Proof.
  unfold handleOperator.
  cbn [waitingForOperand setLastPressedButton display previousValue operator].
  destruct (previousValue st); [destruct (operator st), (waitingForOperand st)|];
    reflexivity.
Qed.

Lemma lastPressed_decimal (st : State) :
  lastPressedButton (handleDecimal st) = Some "decimal".
Proof.
  unfold handleDecimal. cbn [waitingForOperand setLastPressedButton].
  destruct (waitingForOperand st); reflexivity.
Qed.

Lemma lastPressed_backspace (st : State) :
  waitingForOperand st = false ->
  lastPressedButton (handleBackspace st) = Some "backspace".
Proof. intros W. unfold handleBackspace. rewrite W. reflexivity. Qed.

Lemma lastPressed_onClick (b : Button) (st : State) :
  showsPress b st = true ->
  lastPressedButton (onClick b st) = pressedLiteral b.
Proof.
  destruct b as [| |op|d| |]; cbn [onClick showsPress]; try discriminate.
  - intros W. apply negb_true_iff in W. apply lastPressed_backspace, W.
  - intros _. rewrite lastPressed_operator. destruct op; reflexivity.
  - intros _. rewrite lastPressed_number. destruct d; reflexivity.
  - intros _. apply lastPressed_decimal.
Qed.

Lemma pressedLiteral_inj (b b' : Button) (l : string) :
  pressedLiteral b = Some l -> pressedLiteral b' = Some l -> b = b'.
Proof.
  intros H H'.
  destruct b as [| |[]|[]| |]; try discriminate H;
    destruct b' as [| |[]|[]| |]; try discriminate H'; try reflexivity;
    rewrite <- H' in H; discriminate H.
Qed.

Lemma isPressed_unique (b b' : Button) (st : State) :
  isPressed b st = true -> isPressed b' st = true -> b = b'.
Proof.
  unfold isPressed.
  destruct (pressedLiteral b) as [l|] eqn:L; [|discriminate].
  destruct (pressedLiteral b') as [l'|] eqn:L'; [|destruct (lastPressedButton st); discriminate].
  destruct (lastPressedButton st) as [last|]; [|discriminate].
  intros E E'. apply String.eqb_eq in E, E'. subst.
  exact (pressedLiteral_inj _ _ _ L L').
Qed.

Lemma isPressed_after (b b' : Button) (st : State) :
  showsPress b st = true ->
  (isPressed b' (onClick b st) = true <-> b' = b).
Proof.
  intros S. pose proof (lastPressed_onClick b st S) as E.
  assert (P : isPressed b (onClick b st) = true).
  { unfold isPressed. rewrite E.
    destruct (pressedLiteral b) as [l|] eqn:L.
    - apply String.eqb_refl.
    - destruct b as [| |op|d| |]; try discriminate S; try discriminate L;
        [destruct op | destruct d]; discriminate L. }
  split; [|intros ->; exact P].
  intros P'. exact (isPressed_unique _ _ _ P' P).
Qed.

Lemma clicks_cons (b : Button) (ps : list Button) (st : State) :
  clicks (b :: ps) st = clicks ps (onClick b st).
Proof. reflexivity. Qed.

Lemma core_clicks (ps : list Button) (st : State) :
  core (clicks ps st) = Calculator.run ps (core st).
Proof.
  revert st. induction ps as [|b ps IH]; intros st; [reflexivity|].
  rewrite clicks_cons, IH, KeyboardClaims.core_onClick. reflexivity.
Qed.

(** X10. The digit test of the listener compares texts: a key that is "9" or
    begins with one of the digits 0-8 is entered as a digit, so each single
    digit is, and so is a longer text such as "10".  A key that begins with
    no digit and is not in the table leaves the state as it is and is not
    consumed. *)
Theorem keydown_digit_test (key : string) (st : State) :
  (match key with
   | EmptyString => false
   | String c rest => isDigit c && (negb (Ascii.eqb c "9") || String.eqb rest "")
   end = true ->
   handleKeyDown key st = (handleNumber key st, true))
  /\ (startsWithoutDigit key = true ->
      (forall b, ~ In (key, b) keyTable) ->
      handleKeyDown key st = (st, false)).
Proof.
  split.
  - intros T. unfold handleKeyDown. rewrite digit_test, T. reflexivity.
  - intros S N. unfold handleKeyDown. rewrite digit_test.
    replace (match key with
             | EmptyString => false
             | String c rest =>
                 isDigit c && (negb (Ascii.eqb c "9") || String.eqb rest "")
             end) with false
      by (destruct key as [|c rest]; [reflexivity|];
          simpl in S; apply negb_true_iff in S; rewrite S; reflexivity).
    assert (K : forall k b, In (k, b) keyTable -> String.eqb key k = false).
    { intros k b I. destruct (String.eqb key k) eqn:E; [|reflexivity].
      apply String.eqb_eq in E. subst k. destruct (N b I). }
    rewrite (K "+" (ButtonOperator Add)), (K "-" (ButtonOperator Subtract)),
      (K "*" (ButtonOperator Multiply)), (K "/" (ButtonOperator Divide)),
      (K "Enter" ButtonEquals), (K "=" ButtonEquals),
      (K "." ButtonDecimal), (K "," ButtonDecimal),
      (K "Backspace" ButtonBackspace), (K "Delete" ButtonBackspace),
      (K "Escape" ButtonAC); [reflexivity|..];
      unfold keyTable; simpl; tauto.
Qed.

(** An instance of X10: the keys "10" and "Tab" in the initial state. *)
Lemma keydown_digit_test_witness :
  handleKeyDown "10" initial = (handleNumber "10" initial, true)
  /\ handleKeyDown "Tab" initial = (initial, false).
Proof.
  split.
  - apply (proj1 (keydown_digit_test "10" initial)). reflexivity.
  - apply (proj2 (keydown_digit_test "Tab" initial)); [reflexivity|].
    intros b H. unfold keyTable in H. simpl in H.
    repeat (destruct H as [H | H]; [discriminate H|]). exact H.
Defined.

(** X11. The pressed style.  In every state at most one button of the grid
    is rendered as pressed.  After a click on a number, an operator or the
    decimal button, or on backspace while no operand is awaited, the
    pressed button is that button and no other, and the same after the key
    of the table that stands for it; after AC none is. *)
Theorem pressed_button (st : State) :
  (forall b b', isPressed b st = true -> isPressed b' st = true -> b = b')
  /\ (forall b b', showsPress b st = true ->
        (isPressed b' (onClick b st) = true <-> b' = b))
  /\ (forall key b b', In (key, b) keyTable -> showsPress b st = true ->
        (isPressed b' (fst (handleKeyDown key st)) = true <-> b' = b))
  /\ (forall b', isPressed b' (handleClear st) = false).
Proof.
  split; [|split; [|split]].
  - intros b b'. apply isPressed_unique.
  - intros b b'. apply isPressed_after.
  - intros key b b' T S. rewrite (KeyboardClaims.keydown_table _ _ _ T).
    apply isPressed_after, S.
  - intros b'. unfold isPressed. simpl. destruct (pressedLiteral b'); reflexivity.
Qed.

(** An instance of X11: after the key "-" the subtract button is pressed. *)
Lemma pressed_button_witness :
  isPressed (ButtonOperator Subtract) (fst (handleKeyDown "-" initial)) = true.
Proof.
  apply (proj1 (proj2 (proj2 (pressed_button initial)))
           "-" (ButtonOperator Subtract) (ButtonOperator Subtract)).
  - unfold keyTable. simpl. tauto.
  - reflexivity.
  - reflexivity.
Defined.

(** X12. The two revisions agree: for every sequence of clicks and for every
    key of the table, the four cells that the revisions share change in
    the revision with the keyboard listener exactly as they do in the
    first. *)
Theorem revisions_agree (st : State) :
  (forall presses, core (clicks presses st) = Calculator.run presses (core st))
  /\ (forall key b, In (key, b) keyTable ->
        core (fst (handleKeyDown key st)) = Calculator.onClick b (core st)).
Proof.
  split.
  - intros ps. apply core_clicks.
  - intros key b T. rewrite (KeyboardClaims.keydown_table _ _ _ T).
    apply KeyboardClaims.core_onClick.
Qed.

(** An instance of X12: the key "7" in the initial state. *)
Lemma revisions_agree_witness :
  core (fst (handleKeyDown "7" initial)) =
  Calculator.onClick (ButtonNumber D7) (core initial).
Proof.
  apply (proj2 (revisions_agree initial) "7" (ButtonNumber D7)).
  unfold keyTable. simpl. tauto.
Defined.

(** X13. The invariants hold in the revision with the keyboard listener: in
    every state reachable by clicks and by keys of the table, the pending
    operator is absent exactly when the pending operand is, the display is
    not empty, and while no operand is awaited the display is hand-typed
    text of at most fifteen digits. *)
Theorem keyboard_invariants (st : State) :
  reachable st ->
  (operator st = None <-> previousValue st = None)
  /\ display st <> ""
  /\ (waitingForOperand st = false ->
      handTyped (display st) = true /\ (digitCount (display st) <= 15)%nat).
Proof.
  intros R. apply KeyboardClaims.core_reachable in R.
  split; [|split].
  - exact (HandlerFacts.reachable_paired _ R).
  - exact (HandlerFacts.reachable_nonempty _ R).
  - intros W. split.
    + exact (CalculatorFacts.reachable_typed _ R W).
    + exact (HandlerFacts.reachable_cap _ R W).
Qed.

(** An instance of X13: the state after the key "4" and a click on the
    decimal button. *)
Lemma keyboard_invariants_witness :
  (operator (onClick ButtonDecimal (fst (handleKeyDown "4" initial))) = None
   <-> previousValue (onClick ButtonDecimal (fst (handleKeyDown "4" initial))) = None)
  /\ display (onClick ButtonDecimal (fst (handleKeyDown "4" initial))) <> ""
  /\ (waitingForOperand (onClick ButtonDecimal (fst (handleKeyDown "4" initial)))
      = false ->
      handTyped (display (onClick ButtonDecimal (fst (handleKeyDown "4" initial))))
      = true
      /\ (digitCount
            (display (onClick ButtonDecimal (fst (handleKeyDown "4" initial))))
          <= 15)%nat).
Proof.
  apply keyboard_invariants.
  apply reachable_click.
  apply (reachable_key "4" (ButtonNumber D4)); [|apply reachable_initial].
  unfold keyTable. simpl. tauto.
Defined.

End KeyboardProperties.

(** ** The operand parsed from typed text *)
Module ParseFacts.
Import JsNumber CalculatorEngine Keypad DisplayText StringFacts TypedFacts.
Import LiteralFacts Operands.

Lemma shr_1_nonneg (mrs : shr_record) :
  0 <= shr_m mrs -> 0 <= shr_m (shr_1 mrs).
Proof.
  destruct mrs as [m r s]. destruct m as [|[p|p|]|p]; simpl; lia.
Qed.

Lemma iter_pos_nonneg (p : positive) (mrs : shr_record) :
  0 <= shr_m mrs -> 0 <= shr_m (iter_pos shr_1 p mrs).
Proof.
  revert mrs. induction p as [p IH|p IH|]; intros mrs H; simpl.
  - apply IH, IH, shr_1_nonneg, H.
  - apply IH, IH, H.
  - apply shr_1_nonneg, H.
Qed.

Lemma shr_fexp_nonneg (m e : Z) (l : location) :
  0 <= m -> 0 <= shr_m (fst (shr_fexp prec emax m e l)).
Proof.
  intros H. unfold shr_fexp, shr.
  assert (H0 : 0 <= shr_m (shr_record_of_loc m l))
    by (destruct l as [|[]]; exact H).
  destruct (fexp prec emax (Zdigits2 m + e) - e); simpl; auto.
  apply iter_pos_nonneg, H0.
Qed.

Lemma round_nearest_even_nonneg (m : Z) (l : location) :
  0 <= m -> 0 <= round_nearest_even m l.
Proof.
  intros H. destruct l as [|[]]; simpl; try lia.
  destruct (Z.even m); lia.
Qed.

Lemma binary_round_aux_nonneg (m e : Z) (l : location) :
  0 <= m -> isNonNegative (binary_round_aux prec emax false m e l) = true.
Proof.
  intros H. unfold binary_round_aux.
  pose proof (shr_fexp_nonneg m e l H) as H1.
  destruct (shr_fexp prec emax m e l) as [mrs' e']. simpl in H1.
  pose proof (shr_fexp_nonneg _ e' loc_Exact
                (round_nearest_even_nonneg _ (loc_of_shr_record mrs') H1)) as H2.
  destruct (shr_fexp prec emax _ e' loc_Exact) as [mrs'' e'']. simpl in H2.
  destruct (shr_m mrs''); [reflexivity | | lia].
  destruct (e'' <=? emax - prec); reflexivity.
Qed.

Lemma ofRatio_nonneg (p q : positive) : isNonNegative (ofRatio false p q) = true.
Proof.
  unfold ofRatio, SFdiv, SFdiv_core_binary.
  set (m' := match _ - _ - _ with Z0 => _ | Zpos _ => _ | Zneg _ => _ end).
  assert (Hm : 0 <= m').
  { subst m'. destruct (_ - _ - _); [lia | apply Z.shiftl_nonneg; lia | lia]. }
  destruct (Z.div_eucl m' (Zpos q)) as [quo r] eqn:E.
  assert (Hq : quo = m' / Zpos q) by (unfold Z.div; rewrite E; reflexivity).
  apply binary_round_aux_nonneg. rewrite Hq. apply Z.div_pos; lia.
Qed.

Lemma literalValue_nonneg (b : literalBody) :
  isNonNegative (literalValue {| lit_negative := false; lit_body := b |}) = true.
Proof.
  unfold literalValue. cbn [lit_body lit_negative].
  destruct b as [|ip fp e]; [reflexivity|].
  destruct (digitsValue (ip ++ fp)); try reflexivity.
  unfold ofDecimal. destruct (0 <=? _); apply ofRatio_nonneg.
Qed.

Lemma trimStart_digit (c : ascii) (r : string) :
  isDigit c = true -> trimStart (String c r) = String c r.
Proof.
  destruct c as [[] [] [] [] [] [] [] []]; try discriminate; reflexivity.
Qed.

Lemma parseFloat_typed (s : string) :
  handTyped s = true -> isNonNegative (parseFloat s) = true.
Proof.
  intros T. pose proof (handTyped_literal s T) as L.
  destruct s as [|c r]; [discriminate|].
  simpl in T. apply andb_prop in T as [Hc _].
  unfold parseFloat. rewrite (trimStart_digit _ _ Hc).
  unfold isNumericLiteral in L. rewrite (scanLiteral_digit _ _ Hc) in *.
  destruct (scanUnsigned (String c r)) as [[b tl]|]; [|discriminate].
  apply literalValue_nonneg.
Qed.

End ParseFacts.

(** ** What the handlers parse *)
Module ParseProperties.
Import JsNumber CalculatorEngine Keypad DisplayText.
Import Calculator Invariants CalculatorFacts Operands ParseFacts.

(** X14. While no operand is awaited, the number that [handleOperator] and
    [handleEquals] parse from the display is never NaN and never negative,
    not even the zero -0: NaN and negative operands come from results
    only. *)
Theorem typed_operand_parses (st : State) :
  reachable st -> waitingForOperand st = false ->
  isNonNegative (parseFloat (display st)) = true.
Proof.
  intros R W. apply parseFloat_typed, reachable_typed; assumption.
Qed.

(** An instance of X14: the operand typed as 0, ., 5. *)
Lemma typed_operand_parses_witness :
  isNonNegative
    (parseFloat
       (display (run [ButtonNumber D0; ButtonDecimal; ButtonNumber D5] initial)))
  = true.
Proof.
  apply typed_operand_parses; [apply reachable_run; constructor | reflexivity].
Defined.

End ParseProperties.

(** ** Typing a number, further *)
Module EntryFacts.
Import JsNumber CalculatorEngine Keypad DisplayText StringFacts TypedFacts.
Import Calculator Invariants CalculatorFacts TypingFacts HandlerFacts Operands.

Lemma snoc_not_0 (s : string) (d : Digit) :
  s <> "" -> String.eqb (s ++ digitText d) "0" = false.
Proof.
  intros N. destruct s as [|c [|c' r]]; [contradiction| |].
  - destruct d; simpl; destruct (Ascii.eqb c "0"); reflexivity.
  - simpl. destruct (Ascii.eqb c "0"); reflexivity.
Qed.

(** Digits typed after the first keys of a number, below the cap. *)
Lemma typing_more (ds : list Digit) (st : State) :
  waitingForOperand st = false -> handTyped (display st) = true ->
  String.eqb (display st) "0" = false ->
  (digitCount (display st) + List.length ds <= 15)%nat ->
  typing ds st = setDisplay (display st ++ digitsText ds) st.
Proof.
  revert st. induction ds as [|d ds IH]; intros st W T Z L.
  - simpl. rewrite append_nil_r. symmetry. apply setDisplay_same.
  - change (typing (d :: ds) st) with (typing ds (handleNumber (digitText d) st)).
    rewrite (handleNumber_step d st W T), Z.
    simpl in L.
    destruct (Nat.leb_spec 15 (digitCount (display st))); [lia|].
    destruct (digitText_digit d) as (c & E & Hc).
    rewrite IH; cbn [display setDisplay waitingForOperand]; try assumption.
    + cbn [digitsText]. rewrite setDisplay_twice, append_assoc. reflexivity.
    + rewrite E. apply handTyped_snoc_digit; assumption.
    + apply snoc_not_0, handTyped_nonempty, T.
    + rewrite digitCount_snoc_digit. lia.
Qed.

Lemma operand_typed (ds : list Digit) :
  operand ds = true -> handTyped (digitsText ds) = true.
Proof.
  destruct ds as [|d ds]; [discriminate|]. intros _.
  pose proof (digitsText_allDigits ds) as A.
  cbn [digitsText]. destruct (digitText_digit d) as (c & -> & Hc).
  simpl. rewrite Hc. apply allDigits_fraction, A.
Qed.

Lemma operand_length (ds : list Digit) :
  operand ds = true -> (1 <= List.length ds)%nat.
Proof. destruct ds; [discriminate | simpl; lia]. Qed.

(** The keys of a decimal number typed as a fresh number show as its text. *)
Lemma typing_decimal (whole frac : list Digit) (st : State) :
  waitingForOperand st = true \/ display st = "0" ->
  operand whole = true ->
  (List.length whole + List.length frac <= 15)%nat ->
  run (decimalKeys whole frac) st =
  {| display := decimalText whole frac; previousValue := previousValue st;
     operator := operator st; waitingForOperand := false |}.
Proof.
  intros F O L. unfold decimalKeys, decimalText.
  rewrite run_app, run_cons.
  change (run (map ButtonNumber whole) st) with (typing whole st).
  rewrite (typing_operand whole st F O).
  pose proof (operand_typed whole O) as T.
  pose proof (digitsText_allDigits whole) as A.
  cbn [onClick]. unfold handleDecimal.
  cbn [waitingForOperand display setDisplay].
  rewrite includes_point, (allDigits_pointCount _ A).
  cbn [Nat.eqb negb].
  change (run (map ButtonNumber frac) ?s) with (typing frac s).
  rewrite typing_more; cbn [display waitingForOperand setDisplay].
  - rewrite append_assoc. reflexivity.
  - reflexivity.
  - apply handTyped_snoc_point; [exact T | apply allDigits_pointCount, A].
  - pose proof (operand_length whole O) as N.
    pose proof (digitsText_length whole) as D.
    destruct (digitsText whole) as [|c [|c' r]]; simpl in D; [lia| |].
    + simpl. destruct (Ascii.eqb c "0"); reflexivity.
    + simpl. destruct (Ascii.eqb c "0"); reflexivity.
  - unfold digitCount in *. rewrite count_append.
    pose proof (allDigits_digitCount _ A) as D. unfold digitCount in D.
    rewrite D, digitsText_length. simpl. lia.
Qed.

Lemma noLeadingZero_snoc (s : string) (c : ascii) :
  noLeadingZero s = true -> String.eqb s "0" = false ->
  noLeadingZero (s ++ String c "") = true.
Proof.
  destruct s as [|a [|a' r]]; [reflexivity| |].
  - simpl. destruct (Ascii.eqb a "0"); [discriminate | reflexivity].
  - simpl. trivial.
Qed.

Lemma noLeadingZero_dropLast (s : string) :
  noLeadingZero s = true -> noLeadingZero (dropLast s) = true.
Proof.
  destruct s as [|a [|a' [|a'' r]]]; try reflexivity.
  intros H. exact H.
Qed.

End EntryFacts.

(** ** What typing shows *)
Module EntryProperties.
Import JsNumber CalculatorEngine Keypad DisplayText StringFacts TypedFacts.
Import Calculator Invariants CalculatorFacts TypingFacts HandlerFacts Operands.
Import EntryFacts.

(** X15. A decimal number typed as a fresh number is shown key for key: the
    digits of a whole number, the decimal key and further digits, fifteen
    digits at most in all, leave the display with exactly that text, and
    the pending operand and operator as they were.  When moreover no
    operand is pending in the state the typing starts from, then with an
    operator, a second such number and equals, the display is the text of
    the result of the operation on the two numbers those texts parse to. *)
Theorem decimal_shown_as_typed (whole frac : list Digit) (st : State) :
  waitingForOperand st = true \/ display st = "0" ->
  operand whole = true ->
  (List.length whole + List.length frac <= 15)%nat ->
  run (decimalKeys whole frac) st =
  {| display := decimalText whole frac; previousValue := previousValue st;
     operator := operator st; waitingForOperand := false |}
  /\ (forall whole' frac' op,
        previousValue st = None -> operand whole' = true ->
        (List.length whole' + List.length frac' <= 15)%nat ->
        run (decimalKeys whole frac ++ ButtonOperator op
               :: decimalKeys whole' frac' ++ [ButtonEquals]) st =
        {| display :=
             toString (calculate (parseFloat (decimalText whole frac))
                                 (parseFloat (decimalText whole' frac')) op);
           previousValue := None; operator := None;
           waitingForOperand := true |}).
Proof.
  intros F O L. split; [apply typing_decimal; assumption|].
  intros whole' frac' op P O' L'.
  rewrite run_app, run_cons, run_app.
  rewrite (typing_decimal whole frac st F O L), P.
  cbn [onClick]. unfold handleOperator.
  cbn [previousValue display setPreviousValue setOperator setWaitingForOperand
       operator waitingForOperand].
  rewrite typing_decimal; [reflexivity | left; reflexivity | exact O' | exact L'].
Qed.

(** An instance of X15: 1, 2, ., 5 shows "12.5", and 12.5 * 0.5 shows
    "6.25". *)
Lemma decimal_shown_as_typed_witness :
  display (run (decimalKeys [D1; D2] [D5]) initial) = "12.5"
  /\ display (run (decimalKeys [D1; D2] [D5] ++ ButtonOperator Multiply
                     :: decimalKeys [D0] [D5] ++ [ButtonEquals]) initial)
     = "6.25".
Proof.
  destruct (decimal_shown_as_typed [D1; D2] [D5] initial
              (or_intror eq_refl) eq_refl) as [E1 E2];
    [simpl; lia|].
  split.
  - rewrite E1. reflexivity.
  - rewrite (E2 [D0] [D5] Multiply eq_refl eq_refl); [|simpl; lia].
    vm_compute. reflexivity.
Defined.

(** X16. In every reachable state that does not await a new operand the
    display does not begin with a needless 0: a first 0 is followed by the
    decimal point or by nothing, never by a digit. *)
Theorem no_leading_zero (st : State) :
  reachable st -> waitingForOperand st = false ->
  noLeadingZero (display st) = true.
Proof.
  induction 1 as [|b st R IH]; [reflexivity|].
  destruct b as [| |op|d| |]; cbn [onClick].
  - reflexivity.
  - unfold handleBackspace. destruct (waitingForOperand st) eqn:W;
      [intros W'; congruence|].
    intros _. cbn [display setDisplay]. rewrite slice_dropLast.
    pose proof (noLeadingZero_dropLast _ (IH eq_refl)) as H.
    destruct (dropLast (display st)); [reflexivity | exact H].
  - unfold handleOperator. destruct (previousValue st);
      [destruct (operator st), (waitingForOperand st)|]; discriminate.
  - destruct (waitingForOperand st) eqn:W.
    + unfold handleNumber. rewrite W. intros _. destruct d; reflexivity.
    + rewrite (handleNumber_step d st W (reachable_typed st R W)). intros _.
      destruct (String.eqb (display st) "0") eqn:Z; [destruct d; reflexivity|].
      destruct (15 <=? _)%nat; [exact (IH eq_refl)|].
      destruct (digitText_digit d) as (c & -> & _).
      cbn [display setDisplay]. apply noLeadingZero_snoc; [exact (IH eq_refl) | exact Z].
  - unfold handleDecimal. destruct (waitingForOperand st) eqn:W; [reflexivity|].
    intros _. cbn [display setDisplay].
    destruct (JsString.includes (display st) "."); [exact (IH eq_refl)|].
    specialize (IH eq_refl).
    destruct (display st) as [|a [|a' r]]; [reflexivity| |exact IH].
    simpl. apply orb_true_r.
  - unfold handleEquals. destruct (operator st); [|exact IH].
    destruct (previousValue st); [discriminate | exact IH].
Qed.

(** An instance of X16: the keys 0, 0, 7, backspace, 0, ., 0. *)
Lemma no_leading_zero_witness :
  noLeadingZero
    (display (run [ButtonNumber D0; ButtonNumber D0; ButtonNumber D7;
                   ButtonBackspace; ButtonNumber D0; ButtonDecimal;
                   ButtonNumber D0] initial)) = true.
Proof.
  apply no_leading_zero; [apply reachable_run; constructor | reflexivity].
Defined.

(** X17. The keys that edit the number being typed, the digits, the decimal
    key and backspace, never touch the pending operation: in every state
    the pending operand and the pending operator are after the key what
    they were before it. *)
Theorem editing_keeps_pending (b : Button) (st : State) :
  editsNumber b = true ->
  previousValue (onClick b st) = previousValue st
  /\ operator (onClick b st) = operator st.
Proof.
  destruct b as [| |op|d| |]; try discriminate; intros _; cbn [onClick].
  - unfold handleBackspace. destruct (waitingForOperand st); split; reflexivity.
  - unfold handleNumber. destruct (waitingForOperand st); [split; reflexivity|].
    destruct (15 <? _); split; reflexivity.
  - unfold handleDecimal. destruct (waitingForOperand st); split; reflexivity.
Qed.

(** An instance of X17: a digit typed while 5 + is pending. *)
Lemma editing_keeps_pending_witness :
  previousValue
    (onClick (ButtonNumber D3)
       (run [ButtonNumber D5; ButtonOperator Add] initial))
  = previousValue (run [ButtonNumber D5; ButtonOperator Add] initial)
  /\ operator
       (onClick (ButtonNumber D3)
          (run [ButtonNumber D5; ButtonOperator Add] initial))
     = operator (run [ButtonNumber D5; ButtonOperator Add] initial).
Proof.
  apply editing_keeps_pending. reflexivity.
Defined.

End EntryProperties.
